(** * ts_diagnostic.py: the TypeScript project diagnostic script

    A shallow embedding of
    [.agents/skills/typescript-expert/scripts/ts_diagnostic.py] and the
    properties of its report.

    - Python [str] values are lists of Unicode code points, so that slicing
      ([result[:500]]), [len] and [in] count characters the way Python does.
    - [print] appends one entry to the report; a check is a computation that
      yields the printed entries and either returns or raises.
    - What the script obtains from outside (the child processes, the files,
      [json.load], the Unicode tables behind [str.lower] and [repr]) is a
      variable of the section [Script]. *)

From Stdlib Require Import Ascii String Decimal.
From Stdlib Require Import Floats.SpecFloat.
From Stdlib Require Import NArith ZArith Lia Bool List.
Import ListNotations.

Set Implicit Arguments.

(** ** Python strings *)

Module PyStr.

(** A [str] is its sequence of code points. *)
Definition str := list N.

Fixpoint utf8_decode (bs : list N) : str :=
  match bs with
  | [] => []
  | b :: r =>
      if (b <? 128)%N then b :: utf8_decode r
      else if (b <? 224)%N then
        match r with
        | b1 :: r1 => ((b mod 32) * 64 + b1 mod 64)%N :: utf8_decode r1
        | _ => []
        end
      else if (b <? 240)%N then
        match r with
        | b1 :: b2 :: r2 =>
            ((b mod 16) * 4096 + (b1 mod 64) * 64 + b2 mod 64)%N :: utf8_decode r2
        | _ => []
        end
      else
        match r with
        | b1 :: b2 :: b3 :: r3 =>
            ((b mod 8) * 262144 + (b1 mod 64) * 4096 + (b2 mod 64) * 64 + b3 mod 64)%N
              :: utf8_decode r3
        | _ => []
        end
  end.

(** The literals of the script are written as they stand in the source: the
    file is UTF-8, a literal is decoded to its code points. *)
Definition lit (s : string) : str :=
  utf8_decode (map N_of_ascii (list_ascii_of_string s)).

Definition NL : N := 10.

Fixpoint str_eqb (a b : str) : bool :=
  match a, b with
  | [], [] => true
  | x :: a', y :: b' => (x =? y)%N && str_eqb a' b'
  | _, _ => false
  end.

(** [bool(s)]: a string is truthy when it is not empty. *)
Definition nonempty (s : str) : bool :=
  match s with [] => false | _ :: _ => true end.

(** [s.split(sep)] for a separator of one character. *)
Fixpoint split (sep : N) (s : str) : list str :=
  match s with
  | [] => [[]]
  | c :: s' =>
      if (c =? sep)%N then [] :: split sep s'
      else match split sep s' with
           | [] => [[c]]
           | l :: ls => (c :: l) :: ls
           end
  end.

(** [sep.join(parts)] *)
Fixpoint join (sep : str) (parts : list str) : str :=
  match parts with
  | [] => []
  | [p] => p
  | p :: ps => p ++ sep ++ join sep ps
  end.

(** [s.startswith(sub)] *)
Fixpoint startswith (sub s : str) : bool :=
  match sub, s with
  | [], _ => true
  | x :: sub', y :: s' => (x =? y)%N && startswith sub' s'
  | _ :: _, [] => false
  end.

(** [sub in s] *)
Fixpoint contains (sub s : str) : bool :=
  startswith sub s ||
  match s with
  | [] => false
  | _ :: s' => contains sub s'
  end.

(** [s.count(sub)]: occurrences that do not overlap, found from the left.
    [skip] is the number of characters still covered by the last match. *)
Fixpoint count_from (sub s : str) (skip : nat) : nat :=
  match s with
  | [] => match sub, skip with [], O => 1 | _, _ => 0 end
  | _ :: s' =>
      match skip with
      | S k => count_from sub s' k
      | O => if startswith sub s
             then S (count_from sub s' (length sub - 1))
             else count_from sub s' 0
      end
  end.

Definition count (sub s : str) : nat := count_from sub s 0.

(** [str.isspace] on one character: the code points whose Unicode
    bidirectional class is WS, B or S, or whose category is Zs. *)
Definition isspace (c : N) : bool :=
  ((9 <=? c) && (c <=? 13) || (28 <=? c) && (c <=? 32) || (c =? 133)
   || (c =? 160) || (c =? 5760) || (8192 <=? c) && (c <=? 8202)
   || (c =? 8232) || (c =? 8233) || (c =? 8239) || (c =? 8287)
   || (c =? 12288))%N.

Fixpoint lstrip (s : str) : str :=
  match s with
  | [] => []
  | c :: s' => if isspace c then lstrip s' else s
  end.

Definition rstrip (s : str) : str := rev (lstrip (rev s)).

(** [s.strip()] *)
Definition strip (s : str) : str := rstrip (lstrip s).

(** [s * n] *)
Fixpoint repeat_str (s : str) (n : nat) : str :=
  match n with
  | O => []
  | S k => s ++ repeat_str s k
  end.

Fixpoint uint_digits (d : Decimal.uint) : str :=
  match d with
  | Nil => []
  | D0 d => 48%N :: uint_digits d
  | D1 d => 49%N :: uint_digits d
  | D2 d => 50%N :: uint_digits d
  | D3 d => 51%N :: uint_digits d
  | D4 d => 52%N :: uint_digits d
  | D5 d => 53%N :: uint_digits d
  | D6 d => 54%N :: uint_digits d
  | D7 d => 55%N :: uint_digits d
  | D8 d => 56%N :: uint_digits d
  | D9 d => 57%N :: uint_digits d
  end.

(** [str(n)] for an [int] that is not negative. *)
Definition str_of_nat (n : nat) : str := uint_digits (Nat.to_uint n).

(** [str(z)] for an [int]. *)
Definition str_of_Z (z : Z) : str :=
  match z with
  | Zneg p => 45%N :: str_of_nat (Pos.to_nat p)
  | _ => str_of_nat (Z.to_nat z)
  end.

End PyStr.
Import PyStr.

(** ** The Python run time: exceptions, results, the report *)

Module Py.

(** The exception classes that the script and the library calls it makes can
    raise; all of them derive from [Exception]. Signals delivered from outside
    the program ([KeyboardInterrupt]) are not part of the model. *)
Inductive exc_class : Type :=
  | Exception
  | ValueError
  | JSONDecodeError
  | UnicodeDecodeError
  | UnicodeEncodeError
  | OSError
  | FileNotFoundError
  | PermissionError
  | AttributeError
  | TypeError
  | IndexError
  | RecursionError.

Definition exc_class_eqb (a b : exc_class) : bool :=
  match a, b with
  | Exception, Exception | ValueError, ValueError
  | JSONDecodeError, JSONDecodeError | UnicodeDecodeError, UnicodeDecodeError
  | UnicodeEncodeError, UnicodeEncodeError
  | OSError, OSError | FileNotFoundError, FileNotFoundError
  | PermissionError, PermissionError | AttributeError, AttributeError
  | TypeError, TypeError | IndexError, IndexError
  | RecursionError, RecursionError => true
  | _, _ => false
  end.

(** The direct base class. *)
Definition base (c : exc_class) : option exc_class :=
  match c with
  | Exception => None
  | JSONDecodeError | UnicodeDecodeError | UnicodeEncodeError => Some ValueError
  | FileNotFoundError | PermissionError => Some OSError
  | _ => Some Exception
  end.

(** [issubclass(c, k)]; the hierarchy has depth three. *)
Definition issubclass (c k : exc_class) : bool :=
  exc_class_eqb c k ||
  match base c with
  | None => false
  | Some b =>
      exc_class_eqb b k ||
      match base b with
      | None => false
      | Some bb => exc_class_eqb bb k
      end
  end.

(** An exception object: its class and the text [str(e)] gives. *)
Record exn : Type := mk_exn { exn_class : exc_class; exn_str : str }.

Inductive py (A : Type) : Type :=
  | Return (a : A)
  | Raise (e : exn).
Arguments Return {A} a.
Arguments Raise {A} e.

(** A computation of the script: the entries it prints, in order, and how it
    ends. *)
Definition io (A : Type) : Type := (list str * py A)%type.

Definition ret {A} (a : A) : io A := ([], Return a).
Definition raise {A} (e : exn) : io A := ([], Raise e).
Definition lift {A} (r : py A) : io A := ([], r).

Definition bind {A B} (m : io A) (k : A -> io B) : io B :=
  match m with
  | (out, Return a) => let (out', r) := k a in (out ++ out', r)
  | (out, Raise e) => (out, Raise e)
  end.

(** [print(s)] of a text that standard output can encode: the literals of
    the script and the text decoded from a child process. *)
Definition print (s : str) : io unit := ([s], Return tt).

(** Standard output is UTF-8 with the strict error handler. The one thing it
    cannot encode is a lone surrogate, which a text loaded from a JSON file
    can hold (the escape [\ud83d]). *)
Definition is_surrogate (c : N) : bool := ((55296 <=? c) && (c <=? 57343))%N.

Definition has_surrogate (s : str) : bool := existsb is_surrogate s.

Definition hex_digit (d : N) : N := if (d <? 10)%N then (48 + d)%N else (87 + d)%N.

(** [%04x] *)
Definition hex4 (c : N) : str :=
  [ hex_digit (c / 4096); hex_digit ((c / 256) mod 16);
    hex_digit ((c / 16) mod 16); hex_digit (c mod 16) ].

(** The number of surrogates at the head of [s]. *)
Fixpoint surrogate_run (s : str) : nat :=
  match s with
  | c :: s' => if is_surrogate c then S (surrogate_run s') else 0
  | [] => 0
  end.

(** [str(e)] of the [UnicodeEncodeError] for the first run of surrogates of
    [s], which starts at [start] characters after the text already passed. *)
Fixpoint encode_error_text (s : str) (start : nat) : str :=
  match s with
  | [] => []
  | c :: s' =>
      if is_surrogate c then
        match surrogate_run s' with
        | O =>
            lit "'utf-8' codec can't encode character '\u" ++ hex4 c
              ++ lit "' in position " ++ str_of_nat start
              ++ lit ": surrogates not allowed"
        | S more =>
            lit "'utf-8' codec can't encode characters in position "
              ++ str_of_nat start ++ lit "-" ++ str_of_nat (start + S more)
              ++ lit ": surrogates not allowed"
        end
      else encode_error_text s' (S start)
  end.

Definition encode_error (s : str) : exn :=
  mk_exn UnicodeEncodeError (encode_error_text s 0).

(** [print(prefix + shown)] where [shown] is text loaded from a file: the
    whole text is encoded before any of it is written. *)
Definition print_loaded (prefix shown : str) : io unit :=
  if has_surrogate shown then raise (encode_error (prefix ++ shown))
  else print (prefix ++ shown).

(** [try: body / except cls as e: handler e] *)
Definition try_except {A} (body : io A) (cls : exc_class) (handler : exn -> io A)
  : io A :=
  match body with
  | (out, Raise e) =>
      if issubclass (exn_class e) cls
      then let (out', r) := handler e in (out ++ out', r)
      else (out, Raise e)
  | done => done
  end.

Fixpoint for_each {A} (l : list A) (body : A -> io unit) : io unit :=
  match l with
  | [] => ret tt
  | x :: rest => bind (body x) (fun _ => for_each rest body)
  end.

Definition printed {A} (m : io A) : list str := fst m.
Definition outcome {A} (m : io A) : py A := snd m.

End Py.
Import Py.

Declare Scope io_scope.
Delimit Scope io_scope with io.
Notation "x <- m ;; k" := (bind m (fun x => k))
  (at level 61, m at next level, right associativity) : io_scope.
Notation "m ;; k" := (bind m (fun _ => k))
  (at level 61, right associativity) : io_scope.
Open Scope io_scope.

(** ** Values loaded by [json.load] *)

Module Json.

(** A [dict] keeps its keys in insertion order. *)
#[warnings="-register-all"]
Inductive json : Type :=
  | JNull
  | JBool (b : bool)
  | JInt (z : Z)
  | JFloat (f : spec_float)
  | JStr (s : str)
  | JArr (items : list json)
  | JObj (entries : list (str * json)).

Definition dict := list (str * json).

(** [type(v).__name__] *)
Definition type_name (v : json) : str :=
  match v with
  | JNull => lit "NoneType"
  | JBool _ => lit "bool"
  | JInt _ => lit "int"
  | JFloat _ => lit "float"
  | JStr _ => lit "str"
  | JArr _ => lit "list"
  | JObj _ => lit "dict"
  end.

(** [bool(v)] *)
Definition truthy (v : json) : bool :=
  match v with
  | JNull => false
  | JBool b => b
  | JInt z => negb (z =? 0)%Z
  | JFloat (S754_zero _) => false
  | JFloat _ => true
  | JStr s => nonempty s
  | JArr [] => false
  | JArr _ => true
  | JObj [] => false
  | JObj _ => true
  end.

Fixpoint dict_get (d : dict) (key : str) (default : json) : json :=
  match d with
  | [] => default
  | (k, v) :: d' => if str_eqb k key then v else dict_get d' key default
  end.

(** [d[key] = v]: a key already present keeps its place. *)
Fixpoint dict_set (d : dict) (key : str) (v : json) : dict :=
  match d with
  | [] => [(key, v)]
  | (k, w) :: d' =>
      if str_eqb k key then (k, v) :: d' else (k, w) :: dict_set d' key v
  end.

(** [d.update(other)] *)
Definition dict_update (d other : dict) : dict :=
  fold_left (fun acc kv => dict_set acc (fst kv) (snd kv)) other d.

Definition keys (d : dict) : list str := map fst d.

(** [obj.get(key, default)]: only a [dict] has the method. *)
Definition py_get (obj : json) (key : str) (default : json) : io json :=
  match obj with
  | JObj d => ret (dict_get d key default)
  | _ => raise (mk_exn AttributeError
                  (lit "'" ++ type_name obj ++ lit "' object has no attribute 'get'"))
  end.

(** [**obj] inside a dict display: only a mapping can be unpacked. *)
Definition unpack_into (acc : dict) (obj : json) : io dict :=
  match obj with
  | JObj d => ret (dict_update acc d)
  | _ => raise (mk_exn TypeError
                  (lit "'" ++ type_name obj ++ lit "' object is not a mapping"))
  end.

End Json.
Import Json.

(** ** The script *)

Section Script.

(** [str.lower] on a string that has a character outside ASCII (the Unicode
    case tables, with their context rules). *)
Variable unicode_lower : str -> str.

(** [repr] of a [float], a [list] or a [dict], as an f-string formats it. *)
Variable repr_value : json -> str.

(** [json.loads] *)
Variable json_loads : str -> py json.

(** The operating system: [Popen(cmd)] followed by [communicate()], giving the
    text the child wrote to its standard output and to its standard error, or
    the exception of a child that could not be started. *)
Variable spawn : list str -> py (str * str).

(** [Path(p).exists()]: the answer, or the [OSError] of a [stat] that failed
    for another reason than a missing file (a [PermissionError]), which
    [exists] raises again. And [open(p)] followed by [read()]. *)
Variable path_exists : str -> py bool.
Variable read_text : str -> py str.

Definition ascii_lower (c : N) : N :=
  if ((65 <=? c) && (c <=? 90))%N then (c + 32)%N else c.

(** [s.lower()] *)
Definition lower (s : str) : str :=
  if forallb (fun c => (c <? 128)%N) s then map ascii_lower s else unicode_lower s.

(** [str(v)] inside an f-string. *)
Definition py_str (v : json) : str :=
  match v with
  | JNull => lit "None"
  | JBool true => lit "True"
  | JBool false => lit "False"
  | JInt z => str_of_Z z
  | JStr s => s
  | _ => repr_value v
  end.

(** [json.load(f)] on the file just opened. *)
Definition json_load (path : str) : io json :=
  text <- lift (read_text path) ;;
  lift (json_loads text).

(** *** subprocess *)

Record CompletedProcess : Type := mk_completed { stdout : str; stderr : str }.

Inductive redirect : Type := PIPE | DEVNULL.

(** The text of the [ValueError] the library raises for conflicting
    arguments. *)
Definition capture_output_conflict : str :=
  lit "stdout and stderr arguments may not be used with capture_output.".

(** [subprocess.run(cmd, shell=False, capture_output=True, text=True)], with
    [stderr=] when [stderr_arg] is given. The library refuses [stdout] or
    [stderr] together with [capture_output] before it starts anything. *)
Definition subprocess_run (cmd : list str) (stderr_arg : option redirect)
  : io CompletedProcess :=
  match stderr_arg with
  | Some _ =>
      raise (mk_exn ValueError capture_output_conflict)
  | None =>
      match spawn cmd with
      | Return (out, err) => ret (mk_completed out err)
      | Raise e => raise e
      end
  end.

Definition run_cmd (cmd : list str) (capture_stderr : bool) : io str :=
  try_except
    (if capture_stderr then
       result <- subprocess_run cmd None ;;
       ret (stdout result ++ stderr result)
     else
       result <- subprocess_run cmd (Some DEVNULL) ;;
       ret (stdout result))
    Exception
    (fun e => ret (exn_str e)).

Definition rule (n : nat) : str := repeat_str (lit "-") n.

Definition nonempty_list {A} (l : list A) : bool :=
  match l with [] => false | _ :: _ => true end.

(** [a or b] on strings *)
Definition str_or (a b : str) : str := if nonempty a then a else b.

Definition check_versions : io unit :=
  print (NL :: lit "📦 Versions:") ;;
  print (rule 40) ;;
  ts_out <- run_cmd [lit "npx"; lit "tsc"; lit "--version"] false ;;
  let ts_version := strip ts_out in
  node_out <- run_cmd [lit "node"; lit "-v"] false ;;
  let node_version := strip node_out in
  print (lit "  TypeScript: " ++ str_or ts_version (lit "Not found")) ;;
  print (lit "  Node.js: " ++ str_or node_version (lit "Not found")).

(** *** check_tsconfig *)

Definition flags : list (str * str) :=
  [ (lit "noUncheckedIndexedAccess", lit "Unchecked index access protection");
    (lit "noImplicitOverride", lit "Implicit override protection");
    (lit "skipLibCheck", lit "Skip lib check (performance)");
    (lit "incremental", lit "Incremental compilation") ].

Definition print_flag (compiler_opts : json) (fd : str * str) : io unit :=
  let (flag, desc) := fd in
  v <- py_get compiler_opts flag JNull ;;
  let status := if truthy v then lit "✅" else lit "⚪" in
  shown <- py_get compiler_opts flag (JStr (lit "not set")) ;;
  print_loaded (lit "  " ++ status ++ lit " " ++ desc ++ lit ": ") (py_str shown).

Definition check_tsconfig : io unit :=
  print (NL :: lit "⚙️ TSConfig Analysis:") ;;
  print (rule 40) ;;
  let tsconfig_path := lit "tsconfig.json" in
  there <- lift (path_exists tsconfig_path) ;;
  if negb there then
    print (lit "⚠️ tsconfig.json not found")
  else
    try_except
      (config <- json_load tsconfig_path ;;
       compiler_opts <- py_get config (lit "compilerOptions") (JObj []) ;;
       strict <- py_get compiler_opts (lit "strict") JNull ;;
       (if truthy strict
        then print (lit "✅ Strict mode enabled")
        else print (lit "⚠️ Strict mode NOT enabled")) ;;
       for_each flags (print_flag compiler_opts) ;;
       module <- py_get compiler_opts (lit "module") (JStr (lit "not set")) ;;
       print_loaded (NL :: lit "  Module: ") (py_str module) ;;
       resolution <- py_get compiler_opts (lit "moduleResolution") (JStr (lit "not set")) ;;
       print_loaded (lit "  Module Resolution: ") (py_str resolution) ;;
       target <- py_get compiler_opts (lit "target") (JStr (lit "not set")) ;;
       print_loaded (lit "  Target: ") (py_str target))
      JSONDecodeError
      (fun _ => print (lit "❌ Invalid JSON in tsconfig.json")).

(** *** check_tooling *)

Definition tools : list (str * str) :=
  [ (lit "biome", lit "Biome (linter/formatter)");
    (lit "eslint", lit "ESLint");
    (lit "prettier", lit "Prettier");
    (lit "vitest", lit "Vitest (testing)");
    (lit "jest", lit "Jest (testing)");
    (lit "turborepo", lit "Turborepo (monorepo)");
    (lit "turbo", lit "Turbo (monorepo)");
    (lit "nx", lit "Nx (monorepo)");
    (lit "lerna", lit "Lerna (monorepo)") ].

Definition tool_line (desc : str) : str := lit "  ✅ " ++ desc.

(** [for dep in all_deps: if tool in dep.lower(): print(...); break] *)
Fixpoint scan_deps (tool desc : str) (deps : list str) : io unit :=
  match deps with
  | [] => ret tt
  | dep :: rest =>
      if contains tool (lower dep)
      then print (tool_line desc)
      else scan_deps tool desc rest
  end.

Definition scan_tools (all_deps : dict) : io unit :=
  for_each tools (fun td => scan_deps (fst td) (snd td) (keys all_deps)).

Definition check_tooling : io unit :=
  print (NL :: lit "🛠️ Tooling Detection:") ;;
  print (rule 40) ;;
  let pkg_path := lit "package.json" in
  there <- lift (path_exists pkg_path) ;;
  if negb there then
    print (lit "⚠️ package.json not found")
  else
    try_except
      (pkg <- json_load pkg_path ;;
       deps <- py_get pkg (lit "dependencies") (JObj []) ;;
       merged <- unpack_into [] deps ;;
       dev_deps <- py_get pkg (lit "devDependencies") (JObj []) ;;
       all_deps <- unpack_into merged dev_deps ;;
       scan_tools all_deps)
      JSONDecodeError
      (fun _ => print (lit "❌ Invalid JSON in package.json")).

(** *** check_monorepo *)

Definition indicators : list (str * str) :=
  [ (lit "pnpm-workspace.yaml", lit "PNPM Workspace");
    (lit "lerna.json", lit "Lerna");
    (lit "nx.json", lit "Nx");
    (lit "turbo.json", lit "Turborepo") ].

Definition detected_line (name : str) : str :=
  lit "  ✅ " ++ name ++ lit " detected".

Definition not_detected_line : str := lit "  ⚪ No monorepo configuration detected".

(** The loop over [indicators]; [found] is the flag it sets. *)
Fixpoint scan_indicators (l : list (str * str)) (found : bool) : io bool :=
  match l with
  | [] => ret found
  | (file, name) :: rest =>
      there <- lift (path_exists file) ;;
      if there then
        print (detected_line name) ;;
        scan_indicators rest true
      else scan_indicators rest found
  end.

Definition check_monorepo : io unit :=
  print (NL :: lit "📦 Monorepo Check:") ;;
  print (rule 40) ;;
  found <- scan_indicators indicators false ;;
  if negb found then print not_detected_line else ret tt.

(** *** check_type_errors *)

Definition error_TS : str := lit "error TS".

(** What the check prints once it has the compiler's text. *)
Definition report_type_errors (result : str) : io unit :=
  let lines := firstn 20 (split NL result) in
  let result := join [NL] lines in
  if contains error_TS result then
    let errors := count error_TS result in
    print (lit "  ❌ " ++ str_of_nat errors ++ lit "+ type errors found") ;;
    print (firstn 500 result)
  else
    print (lit "  ✅ No type errors").

Definition check_type_errors : io unit :=
  print (NL :: lit "🔍 Type Check:") ;;
  print (rule 40) ;;
  result <- run_cmd [lit "npx"; lit "tsc"; lit "--noEmit"] true ;;
  report_type_errors result.

(** *** check_any_usage and check_type_assertions *)

(** [result.strip().split('\n') if result.strip() else []] *)
Definition result_lines (result : str) : list str :=
  if nonempty (strip result) then split NL (strip result) else [].

Definition grep_cmd (pattern : str) : list str :=
  [lit "grep"; lit "-r"; pattern; lit "--include=*.ts"; lit "--include=*.tsx"; lit "src/"].

Definition report_any_usage (result : str) : io unit :=
  let lines := result_lines result in
  let count := length (filter nonempty lines) in
  if 0 <? count then
    print (lit "  ⚠️ Found " ++ str_of_nat count ++ lit " occurrences of ': any'") ;;
    let sample_lines := firstn 5 lines in
    let sample := join [NL] sample_lines in
    if nonempty sample then print sample else ret tt
  else
    print (lit "  ✅ No explicit 'any' types found").

Definition check_any_usage : io unit :=
  print (NL :: lit "⚠️ 'any' Type Usage:") ;;
  print (rule 40) ;;
  result <- run_cmd (grep_cmd (lit ": any")) false ;;
  report_any_usage result.

Definition report_type_assertions (result : str) : io unit :=
  let lines := result_lines result in
  let filtered :=
    filter (fun l => nonempty l && negb (contains (lit "import") l)) lines in
  let count := length filtered in
  if 0 <? count then
    print (lit "  ⚠️ Found " ++ str_of_nat count ++ lit " type assertions")
  else
    print (lit "  ✅ No type assertions found").

Definition check_type_assertions : io unit :=
  print (NL :: lit "⚠️ Type Assertions (as):") ;;
  print (rule 40) ;;
  result <- run_cmd (grep_cmd (lit " as ")) false ;;
  report_type_assertions result.

(** *** check_performance *)

(** [re.compile(r'Check time|Files:|Lines:|Nodes:').search(line)]: the
    pattern is an alternation of four literals. *)
Definition pattern_search (line : str) : bool :=
  existsb (fun p => contains p line)
    [lit "Check time"; lit "Files:"; lit "Lines:"; lit "Nodes:"].

Definition check_performance : io unit :=
  print (NL :: lit "⏱️ Type Check Performance:") ;;
  print (rule 40) ;;
  result <- run_cmd [lit "npx"; lit "tsc"; lit "--extendedDiagnostics"; lit "--noEmit"] true ;;
  let matching_lines := filter pattern_search (split NL result) in
  if nonempty_list matching_lines then
    for_each matching_lines (fun line => print (lit "  " ++ line))
  else
    print (lit "  ⚠️ Could not measure performance").

Definition main : io unit :=
  print (repeat_str (lit "=") 50) ;;
  print (lit "🔍 TypeScript Project Diagnostic Report") ;;
  print (repeat_str (lit "=") 50) ;;
  check_versions ;;
  check_tsconfig ;;
  check_tooling ;;
  check_monorepo ;;
  check_any_usage ;;
  check_type_assertions ;;
  check_type_errors ;;
  check_performance ;;
  print (NL :: repeat_str (lit "=") 50) ;;
  print (lit "✅ Diagnostic Complete") ;;
  print (repeat_str (lit "=") 50).

End Script.

(** ** Vocabulary of the properties *)

Definition no_nl (l : str) : bool := forallb (fun c => negb (c =? NL)%N) l.

Definition all_space (ws : str) : bool := forallb isspace ws.

Definition no_space (sub : str) : bool := forallb (fun c => negb (isspace c)) sub.

(** A line as the search tool writes it: it begins with the path of a file,
    so with a character that is not white space, and holds no newline. *)
Definition tool_line_shape (l : str) : bool :=
  match l with
  | [] => false
  | c :: _ => negb (isspace c)
  end && no_nl l.

(** [f] applied to the last element only. *)
Fixpoint map_last (f : str -> str) (ls : list str) : list str :=
  match ls with
  | [] => []
  | [x] => [f x]
  | x :: xs => x :: map_last f xs
  end.

(** Every position at which [sub] occurs, overlapping or not. *)
Fixpoint occurrences (sub s : str) : nat :=
  (if startswith sub s then 1 else 0) +
  match s with
  | [] => 0
  | _ :: s' => occurrences sub s'
  end.

(** The text the check inspects: the first 20 lines, joined again. *)
Definition window (result : str) : str :=
  join [NL] (firstn 20 (split NL result)).

Definition no_type_errors_line : str := lit "  ✅ No type errors".

Definition type_errors_line (n : nat) : str :=
  lit "  ❌ " ++ str_of_nat n ++ lit "+ type errors found".

(** What the printed entries put on standard output: each followed by a
    newline. *)
Definition stdout_text (entries : list str) : str :=
  flat_map (fun s => s ++ [NL]) entries.

Definition any_usage_count_line (n : nat) : str :=
  lit "  ⚠️ Found " ++ str_of_nat n ++ lit " occurrences of ': any'".

Definition no_any_line : str := lit "  ✅ No explicit 'any' types found".

Definition assertions_count_line (n : nat) : str :=
  lit "  ⚠️ Found " ++ str_of_nat n ++ lit " type assertions".

Definition no_assertions_line : str := lit "  ✅ No type assertions found".

Definition import_ : str := lit "import".

(** The report of the unsafe-type-usage scanner in the words of the
    specification: the non-empty lines of the result are counted, and the
    count is followed by the first [min count 5] of them, verbatim. *)
Definition spec_any_usage_entries (result : str) : list str :=
  let matching := filter nonempty (split NL result) in
  let count := length matching in
  if 0 <? count
  then any_usage_count_line count :: firstn (Nat.min count 5) matching
  else [no_any_line].

(** How many printed entries are exactly [line]. *)
Definition times (line : str) (entries : list str) : nat :=
  length (filter (str_eqb line) entries).

(** An entry that begins with the check mark of a positive finding. *)
Definition checkmark_entry (s : str) : bool := startswith (lit "  ✅ ") s.

(** [tool] occurs in the lower-cased name of some dependency. *)
Definition tool_found (unicode_lower : str -> str) (tool : str) (deps : list str)
  : bool :=
  existsb (fun dep => contains tool (lower unicode_lower dep)) deps.

(** The label lines of the tools found among [deps], in the order of
    [tools]. *)
Definition found_tool_lines (unicode_lower : str -> str) (deps : list str)
  : list str :=
  map (fun td => tool_line (snd td))
    (filter (fun td => tool_found unicode_lower (fst td) deps) tools).

(** [{**deps, **dev}] *)
Definition merged_names (deps dev : dict) : list str :=
  keys (dict_update (dict_update [] deps) dev).

Definition package_not_found_line : str := lit "⚠️ package.json not found".
Definition package_invalid_line : str := lit "❌ Invalid JSON in package.json".
Definition tsconfig_not_found_line : str := lit "⚠️ tsconfig.json not found".
Definition tsconfig_invalid_line : str := lit "❌ Invalid JSON in tsconfig.json".

(** The marker files that are present, in the order of [indicators]. *)
Definition present_markers (present : str -> bool) : list (str * str) :=
  filter (fun fn => present (fst fn)) indicators.

(** No printed entry mentions one of the four flags or the strict mode. *)
Definition no_flag_lines (entries : list str) : bool :=
  forallb (fun s => negb (contains (lit "Strict mode") s)
                    && negb (existsb (fun fd => contains (snd fd) s) flags))
    entries.

Fixpoint distinct (l : list str) : bool :=
  match l with
  | [] => true
  | x :: r => negb (existsb (str_eqb x) r) && distinct r
  end.

(** What [check_versions] prints when both version queries come back with
    the text of the argument conflict. *)
Definition versions_entries : list str :=
  [ NL :: lit "📦 Versions:"; rule 40;
    lit "  TypeScript: " ++ capture_output_conflict;
    lit "  Node.js: " ++ capture_output_conflict ].

Definition banner : list str :=
  [ repeat_str (lit "=") 50;
    lit "🔍 TypeScript Project Diagnostic Report";
    repeat_str (lit "=") 50 ].

Definition tsconfig_heading : list str :=
  [NL :: lit "⚙️ TSConfig Analysis:"; rule 40].

Definition tooling_heading : list str :=
  [NL :: lit "🛠️ Tooling Detection:"; rule 40].

Definition monorepo_heading : list str :=
  [NL :: lit "📦 Monorepo Check:"; rule 40].

(** The [AttributeError] of a method lookup on a value that has no [get]. *)
Definition no_get (v : json) : exn :=
  mk_exn AttributeError
    (lit "'" ++ type_name v ++ lit "' object has no attribute 'get'").

Definition is_object (v : json) : bool :=
  match v with JObj _ => true | _ => false end.

(** *** Sample inputs *)

Module Sample.

Definition quiet_line : str := lit "src/app.ts: checked".

Definition error_line : str :=
  lit "src/app.ts(3,5): error TS2322: Type 'string' is not assignable to type 'number'.".

(** Compiler text of 25 lines whose only error is on line 25. *)
Definition late_error_head : list str := repeat quiet_line 20.
Definition late_error_rest : str :=
  join [NL] [quiet_line; quiet_line; quiet_line; quiet_line; error_line].
Definition late_error_output : str :=
  join [NL] late_error_head ++ NL :: late_error_rest.

(** Compiler text with three errors, all within the first 20 lines. *)
Definition three_errors_output : str :=
  join [NL] [error_line; error_line; quiet_line; error_line;
             lit "Found 3 errors in the same file, starting at: src/app.ts:3"].

(** Seven lines of search output. *)
Definition seven_lines : list str :=
  [ lit "src/api.ts:12:function send(body: any) {";
    lit "src/api.ts:40:  const reply: any = await call();";
    lit "src/cache.ts:7:const store: any = {};";
    lit "src/cache.ts:19:export function put(key: string, value: any) {";
    lit "src/index.tsx:3:const props: any = window.props;";
    lit "src/index.tsx:28:  let state: any;";
    lit "src/util.ts:5:export const noop = (arg: any) => arg;" ].

(** Search output of one line; the source line it shows ends in a space. *)
Definition trailing_space_line : str := lit "src/app.ts:3:let x: any; ".
Definition trailing_space_result : str := trailing_space_line ++ [NL].

(** Search output for the cast pattern: two import lines among five. *)
Definition cast_lines : list str :=
  [ lit "src/api.ts:1:import * as http from 'http';";
    lit "src/api.ts:9:  const body = raw as Payload;";
    lit "src/view.tsx:2:import { render as draw } from './dom';";
    lit "src/view.tsx:14:  const el = node as HTMLElement;";
    lit "src/view.tsx:30:  return (value as unknown) as Props;" ].

(** A project directory: the text files at its root, by name. *)
Definition files : Type := list (str * str).

Definition file_exists (fs : files) (p : str) : bool :=
  existsb (fun kv => str_eqb (fst kv) p) fs.

Fixpoint file_text (fs : files) (p : str) : py str :=
  match fs with
  | [] => Raise (mk_exn FileNotFoundError
                   (lit "[Errno 2] No such file or directory: '" ++ p ++ lit "'"))
  | (k, v) :: rest => if str_eqb k p then Return v else file_text rest p
  end.

(** A JSON string literal: the text between double quotes. *)
Definition quoted (s : str) : str := 34%N :: s ++ [34%N].

(** A manifest whose only dependency is [turborepo]. *)
Definition turborepo_text : str :=
  lit "{" ++ quoted (lit "dependencies") ++ lit ": {"
    ++ quoted (lit "turborepo") ++ lit ": " ++ quoted (lit "^2.0.0") ++ lit "}}".

Definition turborepo_deps : dict := [(lit "turborepo", JStr (lit "^2.0.0"))].

Definition turborepo_manifest : json :=
  JObj [(lit "dependencies", JObj turborepo_deps)].

(** A manifest in which three dependency names contain [eslint]. *)
Definition eslint_text : str :=
  lit "{" ++ quoted (lit "dependencies") ++ lit ": {"
    ++ quoted (lit "react") ++ lit ": " ++ quoted (lit "^18.2.0") ++ lit "}, "
    ++ quoted (lit "devDependencies") ++ lit ": {"
    ++ quoted (lit "eslint") ++ lit ": " ++ quoted (lit "^8.57.0") ++ lit ", "
    ++ quoted (lit "eslint-config-x") ++ lit ": " ++ quoted (lit "^1.0.0") ++ lit ", "
    ++ quoted (lit "@Typescript-ESLint/parser") ++ lit ": " ++ quoted (lit "^7.0.0")
    ++ lit ", "
    ++ quoted (lit "prettier") ++ lit ": " ++ quoted (lit "^3.2.0") ++ lit "}}".

Definition eslint_deps : dict := [(lit "react", JStr (lit "^18.2.0"))].

Definition eslint_dev : dict :=
  [ (lit "eslint", JStr (lit "^8.57.0"));
    (lit "eslint-config-x", JStr (lit "^1.0.0"));
    (lit "@Typescript-ESLint/parser", JStr (lit "^7.0.0"));
    (lit "prettier", JStr (lit "^3.2.0")) ].

Definition eslint_pkg : dict :=
  [ (lit "dependencies", JObj eslint_deps);
    (lit "devDependencies", JObj eslint_dev) ].

Definition eslint_manifest : json := JObj eslint_pkg.

(** A configuration file that opens with a comment, which JSON has not. *)
Definition commented_text : str := lit "// compiler settings
{}".

Definition array_text : str := lit "[]".

(** [json.loads] on the texts above. *)
Definition json_loads (text : str) : py json :=
  if str_eqb text turborepo_text then Return turborepo_manifest
  else if str_eqb text eslint_text then Return eslint_manifest
  else if str_eqb text array_text then Return (JArr [])
  else Raise (mk_exn JSONDecodeError
                (lit "Expecting value: line 1 column 1 (char 0)")).

(** The names of the samples are ASCII, so the Unicode tables are not
    consulted; no sample formats a float or a container. *)
Definition unicode_lower (s : str) : str := s.
Definition repr_value (v : json) : str := type_name v.

(** A machine on which no command can be started. *)
Definition spawn (cmd : list str) : py (str * str) :=
  Raise (mk_exn FileNotFoundError
           (lit "[Errno 2] No such file or directory: '" ++ hd [] cmd ++ lit "'")).

Definition empty_project : files := [].
Definition commented_config_project : files :=
  [(lit "tsconfig.json", commented_text)].
Definition array_config_project : files :=
  [(lit "tsconfig.json", array_text)].
Definition array_manifest_project : files :=
  [(lit "package.json", array_text)].
Definition turborepo_project : files :=
  [(lit "package.json", turborepo_text)].
Definition eslint_project : files :=
  [(lit "package.json", eslint_text)].


(** The checks run in a sample directory. *)
Definition run_check_tsconfig (fs : files) : io unit :=
  check_tsconfig repr_value json_loads
    (fun p => Return (file_exists fs p)) (file_text fs).
Definition run_check_tooling (fs : files) : io unit :=
  check_tooling unicode_lower json_loads
    (fun p => Return (file_exists fs p)) (file_text fs).
Definition run_main (fs : files) : io unit :=
  main unicode_lower repr_value json_loads spawn
    (fun p => Return (file_exists fs p)) (file_text fs).

End Sample.

(** ** Vocabulary of the properties of the whole report *)

(** What [run_cmd] returns with [capture_stderr=True]: the child's standard
    output followed by its standard error, or the text of the exception. *)
Definition merged_text (r : py (str * str)) : str :=
  match r with
  | Return (out, err) => out ++ err
  | Raise e => exn_str e
  end.

Definition tsc_check_cmd : list str := [lit "npx"; lit "tsc"; lit "--noEmit"].

Definition tsc_diagnostics_cmd : list str :=
  [lit "npx"; lit "tsc"; lit "--extendedDiagnostics"; lit "--noEmit"].

Definition type_check_heading : list str :=
  [NL :: lit "🔍 Type Check:"; rule 40].

Definition performance_heading : list str :=
  [NL :: lit "⏱️ Type Check Performance:"; rule 40].

Definition no_performance_line : str := lit "  ⚠️ Could not measure performance".

(** The sections of the two scanners when both receive the text of the
    argument conflict. *)
Definition any_usage_section : list str :=
  [ NL :: lit "⚠️ 'any' Type Usage:"; rule 40;
    any_usage_count_line 1; capture_output_conflict ].

Definition type_assertions_section : list str :=
  [ NL :: lit "⚠️ Type Assertions (as):"; rule 40; assertions_count_line 1 ].

Definition closing : list str :=
  [ NL :: repeat_str (lit "=") 50;
    lit "✅ Diagnostic Complete";
    repeat_str (lit "=") 50 ].

(** The lines of the configuration analyzer for the options [co]. *)
Definition strict_line (co : dict) : str :=
  if truthy (dict_get co (lit "strict") JNull)
  then lit "✅ Strict mode enabled"
  else lit "⚠️ Strict mode NOT enabled".



(** What the analyzer prints for options that set nothing. *)
Definition tsconfig_default_entries : list str :=
  [ lit "⚠️ Strict mode NOT enabled";
    lit "  ⚪ Unchecked index access protection: not set";
    lit "  ⚪ Implicit override protection: not set";
    lit "  ⚪ Skip lib check (performance): not set";
    lit "  ⚪ Incremental compilation: not set";
    NL :: lit "  Module: not set";
    lit "  Module Resolution: not set";
    lit "  Target: not set" ].

(** The [TypeError] of unpacking a value that is no mapping. *)
Definition not_a_mapping (v : json) : exn :=
  mk_exn TypeError (lit "'" ++ type_name v ++ lit "' object is not a mapping").

Definition turborepo_label : str := tool_line (lit "Turborepo (monorepo)").
Definition turbo_label : str := tool_line (lit "Turbo (monorepo)").

(** *** Further sample inputs *)

Module More.

Definition quoted := Sample.quoted.

Definition empty_object_text : str := lit "{}".

(** [{"compilerOptions": null}] *)
Definition null_options_text : str :=
  lit "{" ++ quoted (lit "compilerOptions") ++ lit ": null}".

Definition null_options_config : dict := [(lit "compilerOptions", JNull)].

(** A configuration that turns on the strict mode and the four flags. *)
Definition strict_options : dict :=
  [ (lit "strict", JBool true);
    (lit "noUncheckedIndexedAccess", JBool true);
    (lit "noImplicitOverride", JBool true);
    (lit "skipLibCheck", JBool true);
    (lit "incremental", JBool true);
    (lit "target", JStr (lit "ES2022")) ].

Definition strict_text : str :=
  lit "{" ++ quoted (lit "compilerOptions") ++ lit ": {"
    ++ quoted (lit "strict") ++ lit ": true, "
    ++ quoted (lit "noUncheckedIndexedAccess") ++ lit ": true, "
    ++ quoted (lit "noImplicitOverride") ++ lit ": true, "
    ++ quoted (lit "skipLibCheck") ++ lit ": true, "
    ++ quoted (lit "incremental") ++ lit ": true, "
    ++ quoted (lit "target") ++ lit ": " ++ quoted (lit "ES2022") ++ lit "}}".

Definition strict_config : dict := [(lit "compilerOptions", JObj strict_options)].

(** [{"dependencies": []}] *)
Definition list_deps_text : str :=
  lit "{" ++ quoted (lit "dependencies") ++ lit ": []}".

Definition list_deps_pkg : dict := [(lit "dependencies", JArr [])].

(** [json.loads] on the texts above. *)
Definition json_loads (text : str) : py json :=
  if str_eqb text empty_object_text then Return (JObj [])
  else if str_eqb text null_options_text then Return (JObj null_options_config)
  else if str_eqb text strict_text then Return (JObj strict_config)
  else if str_eqb text list_deps_text then Return (JObj list_deps_pkg)
  else Raise (mk_exn JSONDecodeError
                (lit "Expecting value: line 1 column 1 (char 0)")).

Definition run_check_tsconfig (fs : Sample.files) : io unit :=
  check_tsconfig Sample.repr_value json_loads
    (fun p => Return (Sample.file_exists fs p)) (Sample.file_text fs).

Definition run_check_tooling (fs : Sample.files) : io unit :=
  check_tooling Sample.unicode_lower json_loads
    (fun p => Return (Sample.file_exists fs p)) (Sample.file_text fs).

Definition empty_config_project : Sample.files :=
  [(lit "tsconfig.json", empty_object_text)].
Definition null_options_project : Sample.files :=
  [(lit "tsconfig.json", null_options_text)].
Definition list_deps_project : Sample.files :=
  [(lit "package.json", list_deps_text)].

(** A compiler that writes 24 quiet lines to its standard output and its
    one error to its standard error. *)
Definition quiet_stdout_rest : str :=
  join [NL] [Sample.quiet_line; Sample.quiet_line; Sample.quiet_line;
             Sample.quiet_line] ++ [NL].

Definition error_on_stderr (cmd : list str) : py (str * str) :=
  Return (join [NL] Sample.late_error_head ++ NL :: quiet_stdout_rest,
          Sample.error_line ++ [NL]).

(** What the search tool writes when the source directory is missing. *)
Definition grep_complaint : str := lit "grep: src/: No such file or directory
".

End More.

(** A directory whose two JSON files are there and may not be read. *)
Module Locked.

Definition permission_denied (p : str) : exn :=
  mk_exn PermissionError (lit "[Errno 13] Permission denied: '" ++ p ++ lit "'").

Definition path_exists (p : str) : py bool :=
  Return (str_eqb p (lit "tsconfig.json") || str_eqb p (lit "package.json")).

(** A directory that may not be searched: every [stat] in it fails. *)
Definition no_search (p : str) : py bool := Raise (permission_denied p).

Definition read_text (p : str) : py str := Raise (permission_denied p).

End Locked.

(** ** Vocabulary of the reports when a library call raises *)

(** The report of the monorepo detector in the words of the specification,
    for the markers that [present] says are there: one detected line for each,
    or the single line that none was detected; the check returns. *)
Definition spec_monorepo_report (present : str -> bool) : io unit :=
  (monorepo_heading
     ++ map (fun fn => detected_line (snd fn)) (present_markers present)
     ++ (if length (present_markers present) =? 0 then [not_detected_line] else []),
   Return tt).

(** The report of the configuration analyzer in the words of the
    specification, for a file that is there and is not valid JSON: one error
    line, and the check returns. *)
Definition spec_invalid_config_report : io unit :=
  (tsconfig_heading ++ [tsconfig_invalid_line], Return tt).


Module Edge.

(** A configuration whose target holds a lone surrogate:
    [{"compilerOptions": {"target": "ES\ud83d"}}]. *)
Definition surrogate_target : str := lit "ES" ++ [55357%N].

Definition surrogate_options : dict := [(lit "target", JStr surrogate_target)].

Definition surrogate_config : dict :=
  [(lit "compilerOptions", JObj surrogate_options)].

Definition surrogate_text : str :=
  lit "{" ++ Sample.quoted (lit "compilerOptions") ++ lit ": {"
    ++ Sample.quoted (lit "target") ++ lit ": "
    ++ Sample.quoted (lit "ES\ud83d") ++ lit "}}".

(** A text that opens 100000 arrays and closes none: the parser gives up
    with [RecursionError] before it can find the text wanting. *)
Definition deep_text : str := repeat 91%N (N.to_nat 100000).

Definition too_deep : exn :=
  mk_exn RecursionError
    (lit "maximum recursion depth exceeded while decoding a JSON array from a unicode string").

(** [json.loads] on the texts above. *)
Definition json_loads (text : str) : py json :=
  if str_eqb text surrogate_text then Return (JObj surrogate_config)
  else if str_eqb text deep_text then Raise too_deep
  else Raise (mk_exn JSONDecodeError
                (lit "Expecting value: line 1 column 1 (char 0)")).

Definition surrogate_project : Sample.files :=
  [(lit "tsconfig.json", surrogate_text)].

Definition deep_project : Sample.files :=
  [(lit "tsconfig.json", deep_text)].

Definition run_check_tsconfig (fs : Sample.files) : io unit :=
  check_tsconfig Sample.repr_value json_loads
    (fun p => Return (Sample.file_exists fs p)) (Sample.file_text fs).

(** A configuration file saved as UTF-16: reading it as UTF-8 fails at its
    first byte. *)
Definition not_utf8 : exn :=
  mk_exn UnicodeDecodeError
    (lit "'utf-8' codec can't decode byte 0xff in position 0: invalid start byte").

Definition utf16_read (p : str) : py str := Raise not_utf8.

(** A directory that holds [lerna.json] and [turbo.json] only. *)
Definition two_markers (p : str) : bool :=
  str_eqb p (lit "lerna.json") || str_eqb p (lit "turbo.json").

(** A directory in which [lerna.json] is found and the test for [nx.json]
    fails. *)
Definition nx_unreadable (p : str) : py bool :=
  if str_eqb p (lit "nx.json") then Raise (Locked.permission_denied p)
  else Return (str_eqb p (lit "lerna.json")).

End Edge.

Arguments lit : simpl never.
Opaque lit.

(** * Properties *)

(** ** The command runner *)

Section RunCmd.

Variable spawn : list str -> py (str * str).

Lemma issubclass_Exception (c : exc_class) : issubclass c Exception = true.
Proof. destruct c; reflexivity. Qed.

Lemma run_cmd_merged_ok (cmd : list str) (out err : str) :
  spawn cmd = Return (out, err) ->
  run_cmd spawn cmd true = ([], Return (out ++ err)).
Proof.
  intros Hs. unfold run_cmd, subprocess_run. rewrite Hs. reflexivity.
Qed.

Lemma run_cmd_merged_failure (cmd : list str) (e : exn) :
  spawn cmd = Raise e ->
  run_cmd spawn cmd true = ([], Return (exn_str e)).
Proof.
  intros Hs. unfold run_cmd, subprocess_run. rewrite Hs.
  unfold try_except, raise, bind. rewrite issubclass_Exception. reflexivity.
Qed.

Lemma run_cmd_discard (cmd : list str) :
  run_cmd spawn cmd false = ([], Return capture_output_conflict).
Proof. reflexivity. Qed.

(** C1. With [capture_stderr = False] the runner passes [stderr=DEVNULL]
    together with [capture_output=True]; [subprocess.run] refuses that pair
    before it starts the child, so for every argument vector and every
    behaviour of the child the runner returns the text of that [ValueError]
    and never the child's standard output. *)
Theorem run_cmd_discard_returns_conflict_text (cmd : list str) :
  run_cmd spawn cmd false = ([], Return capture_output_conflict).
Proof. apply run_cmd_discard. Qed.

(** C3. For every argument vector and either option the runner prints
    nothing and returns a string; when the library call under the [try]
    raises, the string is [str(e)] of that exception. *)
Theorem run_cmd_never_raises (cmd : list str) (capture_stderr : bool) :
  (exists s : str, run_cmd spawn cmd capture_stderr = ([], Return s)) /\
  (forall e : exn,
      subprocess_run spawn cmd (if capture_stderr then None else Some DEVNULL)
        = ([], Raise e) ->
      run_cmd spawn cmd capture_stderr = ([], Return (exn_str e))).
Proof.
  split.
  - destruct capture_stderr.
    + destruct (spawn cmd) as [[out err]|e] eqn:Hs.
      * exists (out ++ err). now apply run_cmd_merged_ok.
      * exists (exn_str e). now apply run_cmd_merged_failure.
    + eexists. reflexivity.
  - intros e He. destruct capture_stderr.
    + unfold subprocess_run in He.
      destruct (spawn cmd) as [[out err]|e'] eqn:Hs.
      * discriminate He.
      * injection He as ->. now apply run_cmd_merged_failure.
    + injection He as <-. reflexivity.
Qed.

End RunCmd.

(** ** Facts about the string operations *)

Section StrFacts.

Lemma split_single (l : str) : no_nl l = true -> split NL l = [l].
Proof.
  induction l as [|c l IH]; simpl; intros H.
  - reflexivity.
  - apply andb_true_iff in H as [Hc Hl].
    apply negb_true_iff in Hc. rewrite Hc, (IH Hl). reflexivity.
Qed.

Lemma split_app_nl (l rest : str) :
  no_nl l = true -> split NL (l ++ NL :: rest) = l :: split NL rest.
Proof.
  induction l as [|c l IH]; simpl; intros H.
  - reflexivity.
  - apply andb_true_iff in H as [Hc Hl].
    apply negb_true_iff in Hc. rewrite Hc, (IH Hl). reflexivity.
Qed.

Lemma join_cons2 (sep p q : str) (ps : list str) :
  join sep (p :: q :: ps) = p ++ sep ++ join sep (q :: ps).
Proof. reflexivity. Qed.

Lemma split_join (ls : list str) :
  ls <> [] -> Forall (fun l => no_nl l = true) ls ->
  split NL (join [NL] ls) = ls.
Proof.
  induction ls as [|p ps IH]; intros Hne Hall.
  - contradiction.
  - inversion Hall as [|? ? Hp Hps]; subst.
    destruct ps as [|q ps].
    + simpl. now apply split_single.
    + rewrite join_cons2.
      change (p ++ [NL] ++ join [NL] (q :: ps))
        with (p ++ NL :: join [NL] (q :: ps)).
      rewrite split_app_nl by assumption.
      rewrite IH; [reflexivity | discriminate | assumption].
Qed.

Lemma split_join_more (ls : list str) (rest : str) :
  ls <> [] -> Forall (fun l => no_nl l = true) ls ->
  split NL (join [NL] ls ++ NL :: rest) = ls ++ split NL rest.
Proof.
  induction ls as [|p ps IH]; intros Hne Hall.
  - contradiction.
  - inversion Hall as [|? ? Hp Hps]; subst.
    destruct ps as [|q ps].
    + simpl join. simpl app. now apply split_app_nl.
    + rewrite join_cons2.
      replace ((p ++ [NL] ++ join [NL] (q :: ps)) ++ NL :: rest)
        with (p ++ NL :: (join [NL] (q :: ps) ++ NL :: rest))
        by (now rewrite <- !app_assoc).
      rewrite split_app_nl by assumption.
      rewrite IH; [reflexivity | discriminate | assumption].
Qed.

Lemma firstn_exact {A} (l more : list A) :
  firstn (length l) (l ++ more) = l.
Proof.
  induction l as [|x l IH]; simpl.
  - now destruct more.
  - now rewrite IH.
Qed.

(** *** strip *)

Lemma lstrip_all_space (ws x : str) :
  all_space ws = true -> lstrip (ws ++ x) = lstrip x.
Proof.
  induction ws as [|w ws IH]; simpl; intros H.
  - reflexivity.
  - apply andb_true_iff in H as [Hw Hws]. rewrite Hw. now apply IH.
Qed.

Lemma lstrip_keeps_from (x : str) (c : N) (y : str) :
  isspace c = false -> lstrip (x ++ c :: y) = lstrip x ++ c :: y.
Proof.
  intros Hc. induction x as [|a x IH]; simpl.
  - now rewrite Hc.
  - destruct (isspace a); [exact IH | reflexivity].
Qed.

Lemma rstrip_all_space (x ws : str) :
  all_space ws = true -> rstrip (x ++ ws) = rstrip x.
Proof.
  intros H. unfold rstrip. rewrite rev_app_distr.
  rewrite lstrip_all_space; [reflexivity|].
  unfold all_space in *. rewrite forallb_forall in *.
  intros c Hc. apply H. now apply in_rev.
Qed.

Lemma rstrip_keeps_upto (a : str) (c : N) (b : str) :
  isspace c = false -> rstrip (a ++ c :: b) = a ++ c :: rstrip b.
Proof.
  intros Hc. unfold rstrip. rewrite rev_app_distr. simpl rev.
  rewrite <- app_assoc. simpl app.
  rewrite lstrip_keeps_from by assumption.
  rewrite rev_app_distr. simpl rev. rewrite rev_involutive.
  rewrite <- app_assoc. reflexivity.
Qed.

Lemma lstrip_split (s : str) :
  exists ws, s = ws ++ lstrip s /\ all_space ws = true.
Proof.
  induction s as [|c s (ws & Hs & Hws)]; simpl.
  - exists []. now split.
  - destruct (isspace c) eqn:Hc.
    + exists (c :: ws). split; [simpl; now f_equal | simpl; now rewrite Hc].
    + exists []. now split.
Qed.

Lemma rstrip_split (s : str) :
  exists ws, s = rstrip s ++ ws /\ all_space ws = true.
Proof.
  destruct (lstrip_split (rev s)) as (ws & Hs & Hws).
  exists (rev ws). unfold rstrip. split.
  - rewrite <- rev_app_distr, <- Hs. now rewrite rev_involutive.
  - unfold all_space in *. rewrite forallb_forall in *.
    intros c Hc. apply Hws. now apply in_rev.
Qed.

Lemma no_nl_rstrip (l : str) : no_nl l = true -> no_nl (rstrip l) = true.
Proof.
  intros H. destruct (rstrip_split l) as (ws & Hl & _).
  unfold no_nl in *. rewrite Hl, forallb_app in H.
  now apply andb_true_iff in H as [H _].
Qed.

Lemma shape_rstrip (l : str) :
  tool_line_shape l = true -> tool_line_shape (rstrip l) = true.
Proof.
  intros H. pose proof H as H0.
  unfold tool_line_shape in H. apply andb_true_iff in H as [Hc Hn].
  destruct l as [|c l]; [discriminate|].
  apply negb_true_iff in Hc.
  pose proof (@rstrip_keeps_upto [] c l Hc) as E. simpl in E.
  unfold tool_line_shape. rewrite E. simpl.
  rewrite Hc. simpl.
  pose proof (no_nl_rstrip _ Hn) as Hr. rewrite E in Hr. exact Hr.
Qed.

End StrFacts.

(** ** The type-error checker *)

Section TypeErrors.

Lemma error_TS_chars :
  error_TS = [101; 114; 114; 111; 114; 32; 84; 83]%N.
Proof. vm_compute. reflexivity. Qed.

Lemma startswith_prefix (sub s : str) :
  startswith sub s = true -> exists rest, s = sub ++ rest.
Proof.
  revert s. induction sub as [|x sub IH]; intros s H.
  - now exists s.
  - destruct s as [|y s]; [discriminate|]. simpl in H.
    apply andb_true_iff in H as [Hxy Hs].
    apply N.eqb_eq in Hxy. subst y.
    destruct (IH s Hs) as [rest ->]. now exists rest.
Qed.

(** ["error TS"] cannot overlap itself, so [str.count] finds every
    occurrence. *)
Lemma count_error_TS (s : str) :
  count error_TS s = occurrences error_TS s.
Proof.
  unfold count. rewrite error_TS_chars.
  set (pat := [101; 114; 114; 111; 114; 32; 84; 83]%N).
  assert (G : forall n s, length s <= n ->
                count_from pat s 0 = occurrences pat s).
  { induction n as [|n IH]; intros t Hn.
    - destruct t; [reflexivity | simpl in Hn; lia].
    - destruct t as [|c t]; [reflexivity|].
      cbn [count_from occurrences].
      destruct (startswith pat (c :: t)) eqn:Hm.
      + destruct (startswith_prefix _ _ Hm) as [rest E].
        unfold pat in E. simpl in E. injection E as -> ->.
        simpl in Hn.
        unfold pat. simpl. f_equal.
        assert (Hr : length rest <= n) by lia.
        clear -IH Hr.
        assert (IH' := IH rest Hr). unfold pat in IH'.
        destruct rest as [|r rest]; [reflexivity|].
        cbn [count_from occurrences] in IH'. exact IH'.
      + simpl in Hn. rewrite IH by lia. reflexivity. }
  now apply (G (length s)).
Qed.

Lemma report_type_errors_window (result : str) :
  report_type_errors result =
  if contains error_TS (window result)
  then ([type_errors_line (occurrences error_TS (window result));
         firstn 500 (window result)], Return tt)
  else ([no_type_errors_line], Return tt).
Proof.
  unfold report_type_errors. fold (window result).
  destruct (contains error_TS (window result)).
  - rewrite count_error_TS. reflexivity.
  - reflexivity.
Qed.

(** C2. The report of the type-error checker depends on the compiler's text
    only through its first 20 lines. When those lines, joined, contain
    ["error TS"], it prints the number of occurrences in them followed by
    ["+"], then at most the first 500 characters of them; otherwise it prints
    the success line, whatever follows the 20th line. *)
Theorem type_errors_depend_on_first_20_lines :
  (forall r1 r2 : str,
      firstn 20 (split NL r1) = firstn 20 (split NL r2) ->
      report_type_errors r1 = report_type_errors r2) /\
  (forall result : str,
      contains error_TS (window result) = true ->
      report_type_errors result =
        ([type_errors_line (occurrences error_TS (window result));
          firstn 500 (window result)], Return tt) /\
      length (firstn 500 (window result)) <= 500) /\
  (forall result : str,
      contains error_TS (window result) = false ->
      report_type_errors result = ([no_type_errors_line], Return tt)) /\
  (forall (head : list str) (rest : str),
      length head = 20 ->
      Forall (fun l => no_nl l = true) head ->
      contains error_TS (join [NL] head) = false ->
      report_type_errors (join [NL] head ++ NL :: rest) =
        ([no_type_errors_line], Return tt)).
Proof.
  repeat split.
  - intros r1 r2 H. rewrite !report_type_errors_window.
    unfold window. now rewrite H.
  - rewrite report_type_errors_window, H. reflexivity.
  - apply firstn_le_length.
  - intros result H. rewrite report_type_errors_window, H. reflexivity.
  - intros head rest Hlen Hall Hno.
    rewrite report_type_errors_window.
    assert (W : window (join [NL] head ++ NL :: rest) = join [NL] head).
    { unfold window. rewrite split_join_more; [|now destruct head|assumption].
      rewrite <- Hlen. now rewrite firstn_exact. }
    rewrite W, Hno. reflexivity.
Qed.

Example three_errors_are_counted :
  printed (report_type_errors Sample.three_errors_output) =
    [lit "  ❌ 3+ type errors found"; firstn 500 Sample.three_errors_output].
Proof. vm_compute. reflexivity. Qed.

Lemma late_error_is_reported_clean :
  contains error_TS Sample.late_error_output = true /\
  report_type_errors Sample.late_error_output =
    ([no_type_errors_line], Return tt).
Proof.
  split; [vm_compute; reflexivity|].
  apply (proj2 (proj2 (proj2 type_errors_depend_on_first_20_lines))
           Sample.late_error_head Sample.late_error_rest).
  - reflexivity.
  - unfold Sample.late_error_head. simpl repeat.
    repeat (apply Forall_cons; [vm_compute; reflexivity|]). apply Forall_nil.
  - vm_compute. reflexivity.
Defined.

End TypeErrors.

(** ** The two scanners over the search tool's text *)

Section Scanners.

Local Abbreviation shaped ls := (Forall (fun l => tool_line_shape l = true) ls).

Lemma shape_head (l : str) :
  tool_line_shape l = true ->
  exists c l', l = c :: l' /\ isspace c = false.
Proof.
  destruct l as [|c l']; [discriminate|]. intros H.
  apply andb_true_iff in H as [Hc _]. apply negb_true_iff in Hc.
  now exists c, l'.
Qed.

Lemma shape_no_nl (l : str) : tool_line_shape l = true -> no_nl l = true.
Proof. intros H. now apply andb_true_iff in H as [_ H]. Qed.

Lemma shape_nonempty (l : str) : tool_line_shape l = true -> nonempty l = true.
Proof. now destruct l. Qed.

Lemma join_cons_more (sep p : str) (xs : list str) :
  xs <> [] -> join sep (p :: xs) = p ++ sep ++ join sep xs.
Proof. destruct xs; [contradiction | reflexivity]. Qed.

Lemma join_head (ls : list str) :
  ls <> [] -> shaped ls ->
  exists c t, join [NL] ls = c :: t /\ isspace c = false.
Proof.
  destruct ls as [|p ps]; [contradiction|]. intros _ H.
  inversion H as [|? ? Hp _]; subst.
  destruct (shape_head _ Hp) as (c & l' & -> & Hc).
  destruct ps as [|q ps].
  - now exists c, l'.
  - rewrite join_cons2. now exists c, (l' ++ [NL] ++ join [NL] (q :: ps)).
Qed.

Lemma map_last_nonnil (f : str -> str) (ls : list str) :
  ls <> [] -> map_last f ls <> [].
Proof. destruct ls as [|p [|q ps]]; [contradiction | discriminate..]. Qed.

Lemma map_last_length (f : str -> str) (ls : list str) :
  length (map_last f ls) = length ls.
Proof.
  induction ls as [|p ps IH]; [reflexivity|].
  destruct ps as [|q ps]; [reflexivity|].
  change (map_last f (p :: q :: ps)) with (p :: map_last f (q :: ps)).
  simpl length in *. now rewrite IH.
Qed.

Lemma map_last_shaped (ls : list str) : shaped ls -> shaped (map_last rstrip ls).
Proof.
  induction ls as [|p ps IH]; intros H; [constructor|].
  inversion H as [|? ? Hp Hps]; subst.
  destruct ps as [|q ps].
  - constructor; [now apply shape_rstrip | constructor].
  - change (map_last rstrip (p :: q :: ps)) with (p :: map_last rstrip (q :: ps)).
    constructor; [assumption | now apply IH].
Qed.

Lemma map_last_firstn (f : str -> str) (n : nat) (ls : list str) :
  n < length ls -> firstn n (map_last f ls) = firstn n ls.
Proof.
  revert n. induction ls as [|p ps IH]; intros n Hn.
  - simpl in Hn. lia.
  - destruct ps as [|q ps].
    + simpl in Hn. assert (n = 0) as -> by lia. reflexivity.
    + change (map_last f (p :: q :: ps)) with (p :: map_last f (q :: ps)).
      destruct n as [|n]; [reflexivity|].
      simpl firstn. f_equal. apply IH. simpl in *. lia.
Qed.

Lemma rstrip_join (ls : list str) :
  ls <> [] -> shaped ls ->
  rstrip (join [NL] ls) = join [NL] (map_last rstrip ls).
Proof.
  induction ls as [|p ps IH]; intros Hne H; [contradiction|].
  inversion H as [|? ? Hp Hps]; subst.
  destruct ps as [|q ps]; [reflexivity|].
  assert (Hq : q :: ps <> []) by discriminate.
  change (map_last rstrip (p :: q :: ps)) with (p :: map_last rstrip (q :: ps)).
  rewrite join_cons2, (join_cons_more _ _ (map_last_nonnil rstrip Hq)).
  rewrite <- (IH Hq Hps).
  destruct (join_head Hq Hps) as (c & t & -> & Hc).
  pose proof (@rstrip_keeps_upto [] c t Hc) as E1. simpl in E1. rewrite E1.
  pose proof (@rstrip_keeps_upto (p ++ [NL]) c t Hc) as E2.
  rewrite <- !app_assoc in E2. exact E2.
Qed.

(** Stripping the text of shaped lines removes what follows the last line
    and the white space that ends it, and nothing else. *)
Lemma strip_tool_output (ls : list str) (ws : str) :
  ls <> [] -> shaped ls -> all_space ws = true ->
  strip (join [NL] ls ++ ws) = join [NL] (map_last rstrip ls).
Proof.
  intros Hne H Hws. unfold strip.
  destruct (join_head Hne H) as (c & t & E & Hc).
  assert (L : lstrip (join [NL] ls ++ ws) = join [NL] ls ++ ws).
  { rewrite E. simpl. now rewrite Hc. }
  rewrite L, rstrip_all_space by assumption.
  now apply rstrip_join.
Qed.

Lemma result_lines_tool_output (ls : list str) (ws : str) :
  shaped ls -> all_space ws = true ->
  result_lines (join [NL] ls ++ ws) = map_last rstrip ls.
Proof.
  intros H Hws. unfold result_lines.
  destruct ls as [|p ps].
  - simpl join. simpl app. unfold strip.
    rewrite <- (app_nil_r ws), lstrip_all_space by assumption. reflexivity.
  - assert (Hne : p :: ps <> []) by discriminate.
    rewrite strip_tool_output by assumption.
    pose proof (map_last_shaped H) as Hs.
    pose proof (map_last_nonnil rstrip Hne) as Hn.
    destruct (join_head Hn Hs) as (c & t & E & _).
    rewrite E at 1. simpl nonempty. cbv iota.
    apply split_join; [assumption|].
    eapply Forall_impl; [|exact Hs]. intros l. apply shape_no_nl.
Qed.

Lemma filter_nonempty_shaped (ls : list str) : shaped ls -> filter nonempty ls = ls.
Proof.
  induction 1 as [|l ls Hl _ IH]; [reflexivity|].
  simpl. now rewrite (shape_nonempty _ Hl), IH.
Qed.

Lemma firstn_shaped (n : nat) (ls : list str) : shaped ls -> shaped (firstn n ls).
Proof.
  intros H. revert n. induction H as [|l ls Hl _ IH]; intros [|n]; simpl;
    constructor; auto.
Qed.

Lemma report_any_usage_shaped (ls : list str) (ws : str) :
  shaped ls -> all_space ws = true ->
  report_any_usage (join [NL] ls ++ ws) =
  (if 0 <? length ls
   then [any_usage_count_line (length ls);
         join [NL] (firstn 5 (map_last rstrip ls))]
   else [no_any_line], Return tt).
Proof.
  intros H Hws. unfold report_any_usage.
  rewrite result_lines_tool_output by assumption.
  pose proof (map_last_shaped H) as Hs.
  rewrite (filter_nonempty_shaped Hs), map_last_length.
  destruct ls as [|p ps]; [reflexivity|].
  change (0 <? length (p :: ps)) with true. cbv iota.
  assert (Hne : firstn 5 (map_last rstrip (p :: ps)) <> []).
  { pose proof (@map_last_nonnil rstrip (p :: ps)) as Hn.
    destruct (map_last rstrip (p :: ps)); [now apply Hn | discriminate]. }
  destruct (join_head Hne (firstn_shaped 5 Hs)) as (c & t & E & _).
  assert (Hsample : nonempty (join [NL] (firstn 5 (map_last rstrip (p :: ps)))) = true)
    by now rewrite E.
  rewrite Hsample. reflexivity.
Qed.

(** C4 (as amended). For the text of lines as the search tool writes them
    (each begins with a file path and holds no newline), followed by any
    white space, the scanner counts the lines; when there is none it prints
    the success line, and otherwise it prints the count and then the first
    five lines, verbatim except that the white space ending the last line of
    the result is dropped. With more than five lines the sample is exactly
    the first five lines. *)
Theorem any_usage_reports_count_and_sample (ls : list str) (ws : str) :
  shaped ls -> all_space ws = true ->
  report_any_usage (join [NL] ls ++ ws) =
    (if 0 <? length ls
     then [any_usage_count_line (length ls);
           join [NL] (firstn 5 (map_last rstrip ls))]
     else [no_any_line], Return tt) /\
  length (firstn 5 (map_last rstrip ls)) = Nat.min 5 (length ls) /\
  (5 < length ls -> firstn 5 (map_last rstrip ls) = firstn 5 ls).
Proof.
  intros H Hws. split; [now apply report_any_usage_shaped|]. split.
  - now rewrite length_firstn, map_last_length.
  - apply map_last_firstn.
Qed.

Lemma any_usage_seven_lines :
  report_any_usage (join [NL] Sample.seven_lines ++ [NL]) =
    ([any_usage_count_line 7; join [NL] (firstn 5 Sample.seven_lines)],
     Return tt).
Proof.
  destruct (@any_usage_reports_count_and_sample Sample.seven_lines [NL])
    as (E & _ & V).
  - unfold Sample.seven_lines.
    repeat (apply Forall_cons; [vm_compute; reflexivity|]). apply Forall_nil.
  - reflexivity.
  - rewrite E, V; [reflexivity | simpl; lia].
Defined.

(** The report as the specification words it differs from the report of
    the scanner on one matched line that ends in a space: the scanner prints
    the line without that space. *)
Lemma any_usage_trailing_space_not_verbatim :
  printed (report_any_usage Sample.trailing_space_result) =
    [any_usage_count_line 1; lit "src/app.ts:3:let x: any;"] /\
  spec_any_usage_entries Sample.trailing_space_result =
    [any_usage_count_line 1; Sample.trailing_space_line] /\
  stdout_text (printed (report_any_usage Sample.trailing_space_result)) <>
    stdout_text (spec_any_usage_entries Sample.trailing_space_result).
Proof.
  split; [vm_compute; reflexivity|].
  split; [vm_compute; reflexivity|].
  vm_compute. discriminate.
Qed.

(** *** The type-assertion scanner *)

Lemma import_chars : import_ = [105; 109; 112; 111; 114; 116]%N.
Proof. vm_compute. reflexivity. Qed.

Lemma startswith_app_space (sub a ws : str) :
  no_space sub = true -> all_space ws = true ->
  startswith sub (a ++ ws) = startswith sub a.
Proof.
  intros Hsub Hws. revert a. induction sub as [|x sub IH]; intros a.
  - reflexivity.
  - simpl in Hsub. apply andb_true_iff in Hsub as [Hx Hsub].
    apply negb_true_iff in Hx.
    destruct a as [|y a]; simpl.
    + destruct ws as [|w ws]; [reflexivity|].
      simpl in Hws. apply andb_true_iff in Hws as [Hw _].
      destruct (N.eqb_spec x w) as [->|]; [congruence | reflexivity].
    + now rewrite IH.
Qed.

Lemma contains_space_only (sub ws : str) :
  sub <> [] -> no_space sub = true -> all_space ws = true ->
  contains sub ws = false.
Proof.
  destruct sub as [|x sub]; [contradiction|]. intros _ Hsub.
  simpl in Hsub. apply andb_true_iff in Hsub as [Hx _].
  apply negb_true_iff in Hx.
  induction ws as [|w ws IH]; intros Hws; [reflexivity|].
  simpl in Hws. apply andb_true_iff in Hws as [Hw Hws].
  cbn [contains startswith]. rewrite (IH Hws).
  destruct (N.eqb_spec x w) as [->|]; [congruence | reflexivity].
Qed.

Lemma contains_app_space (sub a ws : str) :
  sub <> [] -> no_space sub = true -> all_space ws = true ->
  contains sub (a ++ ws) = contains sub a.
Proof.
  intros Hne Hsub Hws. induction a as [|y a IH].
  - simpl app. rewrite contains_space_only by assumption.
    destruct sub; [contradiction | reflexivity].
  - change ((y :: a) ++ ws) with (y :: (a ++ ws)). cbn [contains].
    rewrite IH. f_equal.
    exact (@startswith_app_space sub (y :: a) ws Hsub Hws).
Qed.

Lemma contains_import_rstrip (l : str) :
  contains import_ (rstrip l) = contains import_ l.
Proof.
  destruct (rstrip_split l) as (ws & E & Hws).
  rewrite E at 2. symmetry. apply contains_app_space; try assumption.
  - rewrite import_chars. discriminate.
  - rewrite import_chars. reflexivity.
Qed.

Lemma filtered_length (ls : list str) :
  shaped ls ->
  length (filter (fun l => nonempty l && negb (contains import_ l))
            (map_last rstrip ls)) =
  length (filter (fun l => negb (contains import_ l)) ls).
Proof.
  induction ls as [|p ps IH]; intros H; [reflexivity|].
  inversion H as [|? ? Hp Hps]; subst.
  destruct ps as [|q ps].
  - simpl. rewrite contains_import_rstrip.
    rewrite (shape_nonempty _ (shape_rstrip _ Hp)). cbn [andb].
    now destruct (negb (contains import_ p)).
  - change (map_last rstrip (p :: q :: ps)) with (p :: map_last rstrip (q :: ps)).
    cbn [filter]. rewrite (shape_nonempty _ Hp). cbn [andb].
    destruct (negb (contains import_ p)); cbn [length]; now rewrite IH.
Qed.

(** C5. For every result text the type-assertion scanner prints one entry
    only: the count of the non-empty lines that do not contain ["import"], or
    the success line when that count is zero; it never prints a matched
    line. For the text of lines as the search tool writes them, the count is
    the number of those lines that do not contain ["import"]. *)
Theorem type_assertions_reports_count_only :
  (forall result : str,
      let count :=
        length (filter (fun l => nonempty l && negb (contains import_ l))
                  (result_lines result)) in
      report_type_assertions result =
        ([if 0 <? count then assertions_count_line count
          else no_assertions_line], Return tt)) /\
  (forall (ls : list str) (ws : str),
      shaped ls -> all_space ws = true ->
      let count := length (filter (fun l => negb (contains import_ l)) ls) in
      report_type_assertions (join [NL] ls ++ ws) =
        ([if 0 <? count then assertions_count_line count
          else no_assertions_line], Return tt)).
Proof.
  assert (G : forall result : str,
      report_type_assertions result =
        ([if 0 <? length (filter (fun l => nonempty l && negb (contains import_ l))
                            (result_lines result))
          then assertions_count_line
                 (length (filter (fun l => nonempty l && negb (contains import_ l))
                            (result_lines result)))
          else no_assertions_line], Return tt)).
  { intros result. unfold report_type_assertions. fold import_.
    now destruct (0 <? _). }
  split; [exact G|].
  intros ls ws H Hws count. rewrite G.
  rewrite result_lines_tool_output by assumption.
  rewrite filtered_length by assumption. reflexivity.
Qed.

Lemma type_assertions_skip_imports :
  report_type_assertions (join [NL] Sample.cast_lines ++ [NL]) =
    ([assertions_count_line 3], Return tt).
Proof.
  pose proof (proj2 type_assertions_reports_count_only Sample.cast_lines [NL])
    as E.
  cbv zeta in E. rewrite E.
  - vm_compute. reflexivity.
  - unfold Sample.cast_lines.
    repeat (apply Forall_cons; [vm_compute; reflexivity|]). apply Forall_nil.
  - reflexivity.
Defined.

End Scanners.

(** ** The checks that read the project directory *)

Section Checks.

Variable unicode_lower : str -> str.
Variable repr_value : json -> str.
Variable json_loads : str -> py json.
Variable spawn : list str -> py (str * str).
Variable path_exists : str -> py bool.
Variable read_text : str -> py str.

Local Abbreviation the_check_tsconfig :=
  (check_tsconfig repr_value json_loads path_exists read_text).
Local Abbreviation the_check_tooling :=
  (check_tooling unicode_lower json_loads path_exists read_text).
Local Abbreviation the_main :=
  (main unicode_lower repr_value json_loads spawn path_exists read_text).
Local Abbreviation found := (tool_found unicode_lower).

Lemma str_eqb_eq (a b : str) : str_eqb a b = true <-> a = b.
Proof.
  revert b. induction a as [|x a IH]; intros [|y b]; simpl;
    try (split; [discriminate | discriminate]); [tauto|].
  rewrite andb_true_iff, N.eqb_eq, IH. split.
  - now intros [-> ->].
  - intros E. injection E as -> ->. now split.
Qed.

Lemma str_eqb_refl (a : str) : str_eqb a a = true.
Proof. now apply str_eqb_eq. Qed.

Lemma str_eqb_neq (a b : str) : a <> b -> str_eqb a b = false.
Proof.
  intros H. destruct (str_eqb a b) eqn:E; [|reflexivity].
  apply str_eqb_eq in E. contradiction.
Qed.

Lemma distinct_NoDup (l : list str) : distinct l = true -> NoDup l.
Proof.
  induction l as [|x l IH]; simpl; intros H; constructor.
  - apply andb_true_iff in H as [H _]. apply negb_true_iff in H.
    intros Hin. assert (existsb (str_eqb x) l = true) as E.
    { apply existsb_exists. exists x. split; [assumption | apply str_eqb_refl]. }
    congruence.
  - apply IH. now apply andb_true_iff in H as [_ H].
Qed.

Lemma times_absent (s : str) (l : list str) : ~ In s l -> times s l = 0.
Proof.
  unfold times. induction l as [|x l IH]; intros H; [reflexivity|].
  simpl. rewrite str_eqb_neq.
  - apply IH. intros Hin. apply H. now right.
  - intros ->. apply H. now left.
Qed.

Lemma times_cons (s x : str) (l : list str) :
  times s (x :: l) = (if str_eqb s x then 1 else 0) + times s l.
Proof. unfold times. simpl. now destruct (str_eqb s x). Qed.

Lemma times_app (s : str) (l l' : list str) :
  times s (l ++ l') = times s l + times s l'.
Proof. unfold times. now rewrite filter_app, length_app. Qed.

(** In the labels of the selected elements of a list with distinct labels,
    each label stands once when its element is selected and not at all
    otherwise. *)
Lemma times_map_filter {A} (f : A -> str) (g : A -> bool) (l : list A) (x : A) :
  NoDup (map f l) -> In x l ->
  times (f x) (map f (filter g l)) = if g x then 1 else 0.
Proof.
  induction l as [|y l IH]; intros Hnd Hin; [contradiction|].
  simpl in Hnd. inversion Hnd as [|? ? Hy Hl]; subst.
  assert (Hsub : forall s, In s (map f (filter g l)) -> In s (map f l)).
  { intros s Hs. apply in_map_iff in Hs as (z & <- & Hz).
    apply in_map. now apply filter_In in Hz as [Hz _]. }
  destruct Hin as [->|Hin].
  - simpl. destruct (g x).
    + simpl map. rewrite times_cons, str_eqb_refl, times_absent; auto.
    + apply times_absent; auto.
  - assert (f x <> f y) as Hxy.
    { intros E. apply Hy. rewrite <- E. now apply in_map. }
    simpl. destruct (g y).
    + simpl map. rewrite times_cons, (str_eqb_neq Hxy). simpl. now apply IH.
    + now apply IH.
Qed.

(** *** The tooling detector *)

Lemma scan_deps_found (tool desc : str) (deps : list str) :
  scan_deps unicode_lower tool desc deps =
    (if found tool deps then [tool_line desc] else [], Return tt).
Proof.
  induction deps as [|dep deps IH]; [reflexivity|].
  unfold tool_found in *. simpl.
  destruct (contains tool (lower unicode_lower dep)); [reflexivity | exact IH].
Qed.

Lemma for_each_scan (l : list (str * str)) (deps : list str) :
  for_each l (fun td => scan_deps unicode_lower (fst td) (snd td) deps) =
    (map (fun td => tool_line (snd td))
       (filter (fun td => found (fst td) deps) l), Return tt).
Proof.
  induction l as [|td l IH]; [reflexivity|].
  simpl. rewrite scan_deps_found, IH. unfold bind.
  now destruct (found (fst td) deps).
Qed.

Lemma scan_tools_found (all_deps : dict) :
  scan_tools unicode_lower all_deps =
    (found_tool_lines unicode_lower (keys all_deps), Return tt).
Proof. apply for_each_scan. Qed.

Lemma tool_lines_distinct : NoDup (map (fun td => tool_line (snd td)) tools).
Proof. apply distinct_NoDup. vm_compute. reflexivity. Qed.

Lemma check_tooling_loaded (text : str) (pkg deps dev : dict) :
  path_exists (lit "package.json") = Return true ->
  read_text (lit "package.json") = Return text ->
  json_loads text = Return (JObj pkg) ->
  dict_get pkg (lit "dependencies") (JObj []) = JObj deps ->
  dict_get pkg (lit "devDependencies") (JObj []) = JObj dev ->
  the_check_tooling =
    (tooling_heading ++ found_tool_lines unicode_lower (merged_names deps dev),
     Return tt).
Proof.
  intros Hex Hread Hload Hdeps Hdev.
  unfold check_tooling, json_load. rewrite Hex, Hread. cbn [negb lift bind].
  rewrite Hload. cbn [py_get ret bind app]. rewrite Hdeps.
  cbn [unpack_into ret bind app]. rewrite Hdev.
  cbn [unpack_into ret bind app]. rewrite scan_tools_found.
  reflexivity.
Qed.

Lemma heading_not_tool_line (td : str * str) :
  In td tools -> times (tool_line (snd td)) tooling_heading = 0.
Proof.
  intros H. unfold tools in H. simpl in H.
  repeat (destruct H as [<-|H]; [vm_compute; reflexivity|]). contradiction.
Qed.

Lemma times_found_tool_lines (deps : list str) (td : str * str) :
  In td tools ->
  times (tool_line (snd td)) (found_tool_lines unicode_lower deps) =
    if found (fst td) deps then 1 else 0.
Proof.
  intros H. unfold found_tool_lines.
  apply (@times_map_filter _ (fun td => tool_line (snd td))
           (fun td => found (fst td) deps) tools td);
    [exact tool_lines_distinct | exact H].
Qed.

(** Whatever the directory holds, the detector prints its heading and then
    one of: the warning, the error line, nothing (an exception passes
    through), or the label lines of the tools found. *)
Lemma check_tooling_entries :
  exists X : list str,
    printed the_check_tooling = tooling_heading ++ X /\
    (X = [package_not_found_line] \/ X = [package_invalid_line] \/ X = [] \/
     exists deps, X = found_tool_lines unicode_lower deps).
Proof.
  assert (Hwarn : forall out : list str,
             out = tooling_heading ++ [package_not_found_line] ->
             exists X, out = tooling_heading ++ X /\
               (X = [package_not_found_line] \/ X = [package_invalid_line] \/
                X = [] \/ exists deps, X = found_tool_lines unicode_lower deps)).
  { intros out ->. eexists. split; [reflexivity|]. left. reflexivity. }
  assert (Herr : forall out : list str,
             out = tooling_heading ++ [package_invalid_line] ->
             exists X, out = tooling_heading ++ X /\
               (X = [package_not_found_line] \/ X = [package_invalid_line] \/
                X = [] \/ exists deps, X = found_tool_lines unicode_lower deps)).
  { intros out ->. eexists. split; [reflexivity|]. right. left. reflexivity. }
  assert (Hnone : forall out : list str,
             out = tooling_heading ++ [] ->
             exists X, out = tooling_heading ++ X /\
               (X = [package_not_found_line] \/ X = [package_invalid_line] \/
                X = [] \/ exists deps, X = found_tool_lines unicode_lower deps)).
  { intros out ->. eexists. split; [reflexivity|]. right. right. left. reflexivity. }
  unfold check_tooling, json_load.
  destruct (path_exists (lit "package.json")) as [[|]|e0];
    [|now apply Hwarn|now apply Hnone].
  cbn [negb lift bind app].
  destruct (read_text (lit "package.json")) as [text|e].
  2:{ cbn [lift bind try_except print app].
      destruct (issubclass (exn_class e) JSONDecodeError);
        [now apply Herr | now apply Hnone]. }
  cbn [lift bind app].
  destruct (json_loads text) as [v|e].
  2:{ cbn [lift bind try_except print app].
      destruct (issubclass (exn_class e) JSONDecodeError);
        [now apply Herr | now apply Hnone]. }
  destruct v as [| | | | | |pkg]; [now apply Hnone ..|].
  cbn [py_get ret bind app].
  destruct (dict_get pkg (lit "dependencies") (JObj [])) as [| | | | | |deps];
    [now apply Hnone ..|].
  cbn [unpack_into ret bind app].
  destruct (dict_get pkg (lit "devDependencies") (JObj [])) as [| | | | | |dev];
    [now apply Hnone ..|].
  cbn [unpack_into ret bind app]. rewrite scan_tools_found.
  exists (found_tool_lines unicode_lower
            (keys (dict_update (dict_update [] deps) dev))).
  split; [reflexivity|]. right. right. right. now eexists.
Qed.

(** C6. In every run the label of each tool of the fixed list is printed at
    most once. When the manifest loads, the detector prints, after its
    heading, exactly the labels of the fragments that occur in the
    lower-cased name of at least one merged dependency, in the order of the
    list: once for a fragment that one or several names match, and nothing
    for a fragment that no name matches. *)
Theorem tooling_labels_at_most_once :
  Forall (fun td => times (tool_line (snd td)) (printed the_check_tooling) <= 1)
    tools /\
  (forall (text : str) (pkg deps dev : dict),
      path_exists (lit "package.json") = Return true ->
      read_text (lit "package.json") = Return text ->
      json_loads text = Return (JObj pkg) ->
      dict_get pkg (lit "dependencies") (JObj []) = JObj deps ->
      dict_get pkg (lit "devDependencies") (JObj []) = JObj dev ->
      the_check_tooling =
        (tooling_heading
           ++ found_tool_lines unicode_lower (merged_names deps dev),
         Return tt) /\
      Forall (fun td =>
                times (tool_line (snd td)) (printed the_check_tooling) =
                  if found (fst td) (merged_names deps dev) then 1 else 0)
        tools).
Proof.
  split.
  - apply Forall_forall. intros td Htd.
    destruct check_tooling_entries as (X & -> & HX).
    rewrite times_app, (heading_not_tool_line Htd). simpl.
    destruct HX as [->|[->|[->|[deps ->]]]].
    + rewrite times_absent; [lia|]. clear -Htd.
      unfold tools in Htd. simpl in Htd.
      repeat (destruct Htd as [<-|Htd];
              [intros [E|[]]; apply str_eqb_eq in E; vm_compute in E; discriminate|]).
      contradiction.
    + rewrite times_absent; [lia|]. clear -Htd.
      unfold tools in Htd. simpl in Htd.
      repeat (destruct Htd as [<-|Htd];
              [intros [E|[]]; apply str_eqb_eq in E; vm_compute in E; discriminate|]).
      contradiction.
    + cbv. lia.
    + rewrite (times_found_tool_lines _ Htd).
      destruct (found (fst td) deps); lia.
  - intros text pkg deps dev Hex Hread Hload Hdeps Hdev.
    pose proof (check_tooling_loaded Hex Hread Hload Hdeps Hdev) as E.
    split; [exact E|].
    apply Forall_forall. intros td Htd. rewrite E. cbn [printed fst].
    rewrite times_app, (heading_not_tool_line Htd). simpl.
    now apply times_found_tool_lines.
Qed.

(** *** The monorepo detector *)

Lemma scan_indicators_entries
    (present : str -> bool) (l : list (str * str)) (found0 : bool) :
  (forall fn, In fn l -> path_exists (fst fn) = Return (present (fst fn))) ->
  scan_indicators path_exists l found0 =
    (map (fun fn => detected_line (snd fn))
       (filter (fun fn => present (fst fn)) l),
     Return (found0 || existsb (fun fn => present (fst fn)) l)).
Proof.
  revert found0. induction l as [|[file name] l IH]; intros found0 H.
  - simpl. now rewrite orb_false_r.
  - pose proof (H (file, name) (or_introl eq_refl)) as Hf. cbn [fst] in Hf.
    simpl. rewrite Hf. cbn [lift bind app].
    assert (H' : forall fn, In fn l ->
                   path_exists (fst fn) = Return (present (fst fn)))
      by (intros fn Hin; apply H; now right).
    destruct (present file).
    + cbn [bind print]. rewrite (IH true H'). now rewrite orb_true_r.
    + rewrite (IH found0 H'). reflexivity.
Qed.

Lemma scan_indicators_raises
    (present : str -> bool) (l1 : list (str * str)) (file name : str)
    (l2 : list (str * str)) (e : exn) (found0 : bool) :
  (forall fn, In fn l1 -> path_exists (fst fn) = Return (present (fst fn))) ->
  path_exists file = Raise e ->
  scan_indicators path_exists (l1 ++ (file, name) :: l2) found0 =
    (map (fun fn => detected_line (snd fn))
       (filter (fun fn => present (fst fn)) l1), Raise e).
Proof.
  revert found0. induction l1 as [|[f n] l1 IH]; intros found0 H He.
  - simpl. rewrite He. reflexivity.
  - pose proof (H (f, n) (or_introl eq_refl)) as Hf. cbn [fst] in Hf.
    simpl. rewrite Hf. cbn [lift bind app].
    assert (H' : forall fn, In fn l1 ->
                   path_exists (fst fn) = Return (present (fst fn)))
      by (intros fn Hin; apply H; now right).
    destruct (present f).
    + cbn [bind print]. rewrite (IH true H' He). reflexivity.
    + rewrite (IH found0 H' He). reflexivity.
Qed.

(** C7 (as amended). When the four existence tests return, the monorepo
    detector prints, after its heading, one check-marked "detected" line for
    each marker file that is present, in the order of the list, and the
    single "no configuration" line exactly when none is present: the number
    of check-marked entries is the number of present markers, and the "no
    configuration" line stands once when that number is zero and not at all
    otherwise. When a test raises, the detector ends there with that
    exception, after the detected lines of the markers found before it, and
    without the "no configuration" line. *)
Theorem monorepo_lines_follow_markers :
  (forall present : str -> bool,
      (forall fn, In fn indicators ->
                  path_exists (fst fn) = Return (present (fst fn))) ->
      check_monorepo path_exists = spec_monorepo_report present /\
      length (filter checkmark_entry (printed (check_monorepo path_exists))) =
        length (present_markers present) /\
      times not_detected_line (printed (check_monorepo path_exists)) =
        (if length (present_markers present) =? 0 then 1 else 0)) /\
  (forall (present : str -> bool) (l1 : list (str * str)) (file name : str)
          (l2 : list (str * str)) (e : exn),
      indicators = l1 ++ (file, name) :: l2 ->
      (forall fn, In fn l1 -> path_exists (fst fn) = Return (present (fst fn))) ->
      path_exists file = Raise e ->
      check_monorepo path_exists =
        (monorepo_heading
           ++ map (fun fn => detected_line (snd fn))
                (filter (fun fn => present (fst fn)) l1),
         Raise e)).
Proof.
  split.
  - intros present H.
    assert (E : check_monorepo path_exists = spec_monorepo_report present).
    { unfold check_monorepo, spec_monorepo_report, present_markers.
      cbn [bind print]. rewrite (@scan_indicators_entries present indicators false H).
      unfold indicators. cbn [filter existsb fst snd orb bind].
      destruct (present (lit "pnpm-workspace.yaml")),
               (present (lit "lerna.json")),
               (present (lit "nx.json")),
               (present (lit "turbo.json")); reflexivity. }
    split; [exact E|]. rewrite E.
    unfold spec_monorepo_report, present_markers, indicators.
    cbn [filter fst snd printed].
    destruct (present (lit "pnpm-workspace.yaml")),
             (present (lit "lerna.json")),
             (present (lit "nx.json")),
             (present (lit "turbo.json"));
      vm_compute; split; reflexivity.
  - intros present l1 file name l2 e Hl H He.
    unfold check_monorepo. cbn [bind print]. rewrite Hl.
    rewrite (@scan_indicators_raises present l1 file name l2 e false H He).
    reflexivity.
Qed.

(** *** The configuration analyzer *)

Lemma check_tsconfig_absent :
  path_exists (lit "tsconfig.json") = Return false ->
  the_check_tsconfig = (tsconfig_heading ++ [tsconfig_not_found_line], Return tt).
Proof. intros H. unfold check_tsconfig. rewrite H. reflexivity. Qed.

Lemma check_tsconfig_invalid (text : str) (e : exn) :
  path_exists (lit "tsconfig.json") = Return true ->
  read_text (lit "tsconfig.json") = Return text ->
  json_loads text = Raise e ->
  exn_class e = JSONDecodeError ->
  the_check_tsconfig = (tsconfig_heading ++ [tsconfig_invalid_line], Return tt).
Proof.
  intros Hex Hread Hload Hclass.
  unfold check_tsconfig, json_load. rewrite Hex, Hread.
  cbn [negb lift bind app]. rewrite Hload.
  cbn [bind try_except]. rewrite Hclass. reflexivity.
Qed.

Lemma check_tsconfig_not_object (text : str) (v : json) :
  path_exists (lit "tsconfig.json") = Return true ->
  read_text (lit "tsconfig.json") = Return text ->
  json_loads text = Return v ->
  is_object v = false ->
  the_check_tsconfig = (tsconfig_heading, Raise (no_get v)).
Proof.
  intros Hex Hread Hload Hobj.
  unfold check_tsconfig, json_load. rewrite Hex, Hread.
  cbn [negb lift bind app]. rewrite Hload.
  destruct v; try discriminate Hobj; reflexivity.
Qed.

Lemma check_tooling_not_object (text : str) (v : json) :
  path_exists (lit "package.json") = Return true ->
  read_text (lit "package.json") = Return text ->
  json_loads text = Return v ->
  is_object v = false ->
  the_check_tooling = (tooling_heading, Raise (no_get v)).
Proof.
  intros Hex Hread Hload Hobj.
  unfold check_tooling, json_load. rewrite Hex, Hread.
  cbn [negb lift bind app]. rewrite Hload.
  destruct v; try discriminate Hobj; reflexivity.
Qed.

Lemma check_tsconfig_other_error (r : py str) (e : exn) :
  path_exists (lit "tsconfig.json") = Return true ->
  read_text (lit "tsconfig.json") = r ->
  (r = Raise e \/ exists text, r = Return text /\ json_loads text = Raise e) ->
  issubclass (exn_class e) JSONDecodeError = false ->
  the_check_tsconfig = (tsconfig_heading, Raise e).
Proof.
  intros Hex Hread Hr Hclass.
  unfold check_tsconfig, json_load. rewrite Hex, Hread.
  destruct Hr as [->|(text & -> & Hload)].
  - cbn [negb lift bind app try_except]. rewrite Hclass. reflexivity.
  - cbn [negb lift bind app]. rewrite Hload.
    cbn [bind try_except]. rewrite Hclass. reflexivity.
Qed.

(** C8 (as amended). When the existence test says that [tsconfig.json] is
    absent, the analyzer prints its heading and the "not found" warning, and
    returns; when the file is there, can be read, and [json.load] raises
    [JSONDecodeError], it prints its heading and one error line, and
    returns. Neither report has a line about the strict mode or about one of
    the four flags, and in neither case does an exception leave the check.
    Any other exception raised while the file is read or parsed leaves the
    check after the heading. *)
Theorem config_absent_or_invalid_is_reported :
  (path_exists (lit "tsconfig.json") = Return false ->
   the_check_tsconfig =
     (tsconfig_heading ++ [tsconfig_not_found_line], Return tt) /\
   no_flag_lines (printed the_check_tsconfig) = true) /\
  (forall (text : str) (e : exn),
      path_exists (lit "tsconfig.json") = Return true ->
      read_text (lit "tsconfig.json") = Return text ->
      json_loads text = Raise e ->
      exn_class e = JSONDecodeError ->
      the_check_tsconfig =
        (tsconfig_heading ++ [tsconfig_invalid_line], Return tt) /\
      no_flag_lines (printed the_check_tsconfig) = true) /\
  (forall (r : py str) (e : exn),
      path_exists (lit "tsconfig.json") = Return true ->
      read_text (lit "tsconfig.json") = r ->
      (r = Raise e \/ exists text, r = Return text /\ json_loads text = Raise e) ->
      issubclass (exn_class e) JSONDecodeError = false ->
      the_check_tsconfig = (tsconfig_heading, Raise e)).
Proof.
  split; [|split].
  - intros H. rewrite (check_tsconfig_absent H).
    split; [reflexivity | vm_compute; reflexivity].
  - intros text e Hex Hread Hload Hclass.
    rewrite (check_tsconfig_invalid Hex Hread Hload Hclass).
    split; [reflexivity | vm_compute; reflexivity].
  - intros r e. apply check_tsconfig_other_error.
Qed.

(** *** The whole run *)

Lemma conflict_text_shown :
  str_or (strip capture_output_conflict) (lit "Not found") = capture_output_conflict.
Proof. vm_compute. reflexivity. Qed.

(** Both version queries discard standard error, so both lines show the text
    of the argument conflict. *)
Lemma check_versions_entries :
  check_versions spawn = (versions_entries, Return tt).
Proof.
  unfold check_versions. cbn [bind print].
  rewrite !run_cmd_discard. cbn [bind print].
  rewrite conflict_text_shown. reflexivity.
Qed.

(** The two scanners discard standard error as well: whatever the source
    tree holds, each receives the text of the argument conflict as if it
    were one matched line. *)
Lemma check_any_usage_entries :
  check_any_usage spawn =
    ([NL :: lit "⚠️ 'any' Type Usage:"; rule 40;
      any_usage_count_line 1; capture_output_conflict], Return tt).
Proof.
  unfold check_any_usage. cbn [bind print].
  rewrite run_cmd_discard. vm_compute. reflexivity.
Qed.

Lemma check_type_assertions_entries :
  check_type_assertions spawn =
    ([NL :: lit "⚠️ Type Assertions (as):"; rule 40;
      assertions_count_line 1], Return tt).
Proof.
  unfold check_type_assertions. cbn [bind print].
  rewrite run_cmd_discard. vm_compute. reflexivity.
Qed.

Lemma main_stops_at_tsconfig (out : list str) (e : exn) :
  the_check_tsconfig = (out, Raise e) ->
  the_main = (banner ++ versions_entries ++ out, Raise e).
Proof.
  intros H. unfold main. cbn [bind print].
  rewrite check_versions_entries. cbn [bind]. rewrite H. reflexivity.
Qed.

Lemma main_stops_at_tooling (out out' : list str) (e : exn) :
  the_check_tsconfig = (out, Return tt) ->
  the_check_tooling = (out', Raise e) ->
  the_main = (banner ++ versions_entries ++ out ++ out', Raise e).
Proof.
  intros H H'. unfold main. cbn [bind print].
  rewrite check_versions_entries. cbn [bind]. rewrite H. cbn [bind].
  rewrite H'. reflexivity.
Qed.

(** C10. When [tsconfig.json] loads to a value that is not an object, the
    analyzer prints its heading and raises the [AttributeError] of the
    lookup of [get]; nothing catches it, so the run ends there with that
    exception. The tooling detector does the same for [package.json], and
    the run ends there when the analyzer before it returned. *)
Theorem non_object_top_level_raises :
  (forall (text : str) (v : json),
      path_exists (lit "tsconfig.json") = Return true ->
      read_text (lit "tsconfig.json") = Return text ->
      json_loads text = Return v ->
      is_object v = false ->
      the_check_tsconfig = (tsconfig_heading, Raise (no_get v)) /\
      the_main =
        (banner ++ versions_entries ++ tsconfig_heading, Raise (no_get v))) /\
  (forall (text : str) (v : json),
      path_exists (lit "package.json") = Return true ->
      read_text (lit "package.json") = Return text ->
      json_loads text = Return v ->
      is_object v = false ->
      the_check_tooling = (tooling_heading, Raise (no_get v)) /\
      (forall out : list str,
          the_check_tsconfig = (out, Return tt) ->
          the_main =
            (banner ++ versions_entries ++ out ++ tooling_heading,
             Raise (no_get v)))).
Proof.
  split.
  - intros text v Hex Hread Hload Hobj.
    pose proof (check_tsconfig_not_object Hex Hread Hload Hobj) as E.
    split; [exact E | now apply main_stops_at_tsconfig].
  - intros text v Hex Hread Hload Hobj.
    pose proof (check_tooling_not_object Hex Hread Hload Hobj) as E.
    split; [exact E|]. intros out Hout. now apply main_stops_at_tooling.
Qed.

(** C9. For the manifest whose single dependency is named [turborepo], the
    detector prints two labels, one for the fragment [turborepo] and one for
    the fragment [turbo]: both occur in that one name. *)
Theorem one_name_two_labels (text : str) :
  path_exists (lit "package.json") = Return true ->
  read_text (lit "package.json") = Return text ->
  json_loads text = Return Sample.turborepo_manifest ->
  the_check_tooling =
    (tooling_heading
       ++ [tool_line (lit "Turborepo (monorepo)"); tool_line (lit "Turbo (monorepo)")],
     Return tt) /\
  merged_names Sample.turborepo_deps [] = [lit "turborepo"].
Proof.
  intros Hex Hread Hload.
  split; [|reflexivity].
  rewrite (@check_tooling_loaded text
             [(lit "dependencies", JObj Sample.turborepo_deps)]
             Sample.turborepo_deps []
             Hex Hread Hload);
    [|vm_compute; reflexivity ..].
  vm_compute. reflexivity.
Qed.

End Checks.

(** ** The properties at the sample inputs *)

Lemma run_cmd_spawn_failure_is_returned :
  run_cmd Sample.spawn [lit "npx"; lit "tsc"; lit "--noEmit"] true =
    ([], Return (lit "[Errno 2] No such file or directory: 'npx'")).
Proof.
  rewrite (proj2 (run_cmd_never_raises Sample.spawn
                    [lit "npx"; lit "tsc"; lit "--noEmit"] true)
             (mk_exn FileNotFoundError
                (lit "[Errno 2] No such file or directory: 'npx'"))).
  - reflexivity.
  - vm_compute. reflexivity.
Defined.

Lemma tooling_eslint_once :
  Sample.run_check_tooling Sample.eslint_project =
    (tooling_heading ++ [tool_line (lit "ESLint"); tool_line (lit "Prettier")],
     Return tt) /\
  times (tool_line (lit "ESLint"))
    (printed (Sample.run_check_tooling Sample.eslint_project)) = 1.
Proof.
  unfold Sample.run_check_tooling.
  destruct (proj2 (tooling_labels_at_most_once Sample.unicode_lower
                     Sample.json_loads
                     (fun p => Return (Sample.file_exists Sample.eslint_project p))
                     (Sample.file_text Sample.eslint_project))
              Sample.eslint_text Sample.eslint_pkg
              Sample.eslint_deps Sample.eslint_dev) as [E _];
    try (vm_compute; reflexivity).
  rewrite E. split; vm_compute; reflexivity.
Defined.

Lemma config_reports_at_samples :
  Sample.run_check_tsconfig Sample.empty_project =
    (tsconfig_heading ++ [tsconfig_not_found_line], Return tt) /\
  Sample.run_check_tsconfig Sample.commented_config_project =
    (tsconfig_heading ++ [tsconfig_invalid_line], Return tt) /\
  Edge.run_check_tsconfig Edge.deep_project =
    (tsconfig_heading, Raise Edge.too_deep).
Proof.
  unfold Sample.run_check_tsconfig, Edge.run_check_tsconfig. split; [|split].
  - apply (proj1 (config_absent_or_invalid_is_reported Sample.repr_value
                    Sample.json_loads
                    (fun p => Return (Sample.file_exists Sample.empty_project p))
                    (Sample.file_text Sample.empty_project))).
    reflexivity.
  - apply (proj1 (proj2 (config_absent_or_invalid_is_reported Sample.repr_value
                    Sample.json_loads
                    (fun p => Return (Sample.file_exists Sample.commented_config_project p))
                    (Sample.file_text Sample.commented_config_project)))
             Sample.commented_text
             (mk_exn JSONDecodeError
                (lit "Expecting value: line 1 column 1 (char 0)")));
      vm_compute; reflexivity.
  - apply (proj2 (proj2 (config_absent_or_invalid_is_reported Sample.repr_value
                    Edge.json_loads
                    (fun p => Return (Sample.file_exists Edge.deep_project p))
                    (Sample.file_text Edge.deep_project)))
             (Return Edge.deep_text) Edge.too_deep).
    + vm_compute. reflexivity.
    + unfold Edge.deep_project. cbn [Sample.file_text].
      now rewrite str_eqb_refl.
    + right. exists Edge.deep_text. split; [reflexivity | vm_compute; reflexivity].
    + reflexivity.
Defined.

Lemma turborepo_two_labels :
  Sample.run_check_tooling Sample.turborepo_project =
    (tooling_heading
       ++ [tool_line (lit "Turborepo (monorepo)"); tool_line (lit "Turbo (monorepo)")],
     Return tt).
Proof.
  unfold Sample.run_check_tooling.
  apply (@one_name_two_labels Sample.unicode_lower Sample.json_loads
           (fun p => Return (Sample.file_exists Sample.turborepo_project p))
           (Sample.file_text Sample.turborepo_project)
           Sample.turborepo_text);
    vm_compute; reflexivity.
Defined.

Lemma array_files_end_the_run :
  (Sample.run_check_tsconfig Sample.array_config_project =
     (tsconfig_heading, Raise (no_get (JArr []))) /\
   Sample.run_main Sample.array_config_project =
     (banner ++ versions_entries ++ tsconfig_heading, Raise (no_get (JArr [])))) /\
  (Sample.run_check_tooling Sample.array_manifest_project =
     (tooling_heading, Raise (no_get (JArr []))) /\
   Sample.run_main Sample.array_manifest_project =
     (banner ++ versions_entries
        ++ (tsconfig_heading ++ [tsconfig_not_found_line]) ++ tooling_heading,
      Raise (no_get (JArr [])))).
Proof.
  unfold Sample.run_check_tsconfig, Sample.run_check_tooling, Sample.run_main.
  split.
  - apply (proj1 (non_object_top_level_raises Sample.unicode_lower
                    Sample.repr_value Sample.json_loads Sample.spawn
                    (fun p => Return (Sample.file_exists Sample.array_config_project p))
                    (Sample.file_text Sample.array_config_project))
             Sample.array_text (JArr []));
      vm_compute; reflexivity.
  - destruct (proj2 (non_object_top_level_raises Sample.unicode_lower
                       Sample.repr_value Sample.json_loads Sample.spawn
                       (fun p => Return (Sample.file_exists Sample.array_manifest_project p))
                       (Sample.file_text Sample.array_manifest_project))
                Sample.array_text (JArr [])) as [E M];
      try (vm_compute; reflexivity).
    split; [exact E|]. apply M. vm_compute. reflexivity.
Defined.

(** ** Further properties: the checks that run a command *)

Section Commands.

Variable spawn : list str -> py (str * str).

Lemma run_cmd_merged (cmd : list str) :
  run_cmd spawn cmd true = ([], Return (merged_text (spawn cmd))).
Proof.
  unfold merged_text. destruct (spawn cmd) as [[out err]|e] eqn:E.
  - now apply run_cmd_merged_ok.
  - now apply run_cmd_merged_failure.
Qed.

Lemma report_type_errors_returns (result : str) :
  exists out, report_type_errors result = (out, Return tt).
Proof.
  rewrite report_type_errors_window.
  destruct (contains error_TS (window result)); eexists; reflexivity.
Qed.

Lemma check_type_errors_report :
  check_type_errors spawn =
    (type_check_heading
       ++ printed (report_type_errors (merged_text (spawn tsc_check_cmd))),
     Return tt).
Proof.
  unfold check_type_errors. cbn [bind print].
  fold tsc_check_cmd. rewrite run_cmd_merged. cbn [bind].
  destruct (report_type_errors_returns (merged_text (spawn tsc_check_cmd)))
    as [out ->].
  reflexivity.
Qed.

(** X1. Both version queries discard standard error, so on every machine
    the version reporter prints the text of the argument conflict on both
    lines: never a version, and never ["Not found"]. *)
Theorem versions_show_the_conflict_text :
  check_versions spawn =
    ([ NL :: lit "📦 Versions:"; rule 40;
       lit "  TypeScript: " ++ capture_output_conflict;
       lit "  Node.js: " ++ capture_output_conflict ], Return tt).
Proof. apply check_versions_entries. Qed.

(** X2. Whatever the source tree holds and whatever the search tool does,
    the unsafe-type-usage check reports one occurrence and shows the text of
    the argument conflict as its sample. *)
Theorem any_usage_check_ignores_the_sources :
  check_any_usage spawn =
    ([ NL :: lit "⚠️ 'any' Type Usage:"; rule 40;
       any_usage_count_line 1; capture_output_conflict ], Return tt) /\
  any_usage_count_line 1 = lit "  ⚠️ Found 1 occurrences of ': any'".
Proof. split; [apply check_any_usage_entries | vm_compute; reflexivity]. Qed.

(** X3. Whatever the source tree holds and whatever the search tool does,
    the type-assertion check reports one type assertion. *)
Theorem type_assertions_check_ignores_the_sources :
  check_type_assertions spawn =
    ([ NL :: lit "⚠️ Type Assertions (as):"; rule 40;
       assertions_count_line 1 ], Return tt) /\
  assertions_count_line 1 = lit "  ⚠️ Found 1 type assertions".
Proof. split; [apply check_type_assertions_entries | vm_compute; reflexivity]. Qed.

(** X12. When the compiler cannot be started, the type-error check works on
    the text of the exception: unless that text holds ["error TS"] in its
    first 20 lines, the check prints the success line. *)
Theorem type_check_reports_clean_when_compiler_is_missing (e : exn) :
  spawn tsc_check_cmd = Raise e ->
  contains error_TS (window (exn_str e)) = false ->
  check_type_errors spawn =
    (type_check_heading ++ [no_type_errors_line], Return tt).
Proof.
  intros Hs Hno. rewrite check_type_errors_report, Hs. cbn [merged_text].
  rewrite report_type_errors_window, Hno. reflexivity.
Qed.

(** X13. Standard error comes after standard output in the text the check
    inspects: when the compiler writes 20 lines or more to its standard
    output and none of the first 20 holds ["error TS"], the check prints the
    success line whatever the compiler wrote to its standard error. *)
Theorem type_check_misses_errors_behind_20_lines
    (head : list str) (more err : str) :
  spawn tsc_check_cmd = Return (join [NL] head ++ NL :: more, err) ->
  length head = 20 ->
  Forall (fun l => no_nl l = true) head ->
  contains error_TS (join [NL] head) = false ->
  check_type_errors spawn =
    (type_check_heading ++ [no_type_errors_line], Return tt).
Proof.
  intros Hs Hlen Hall Hno. rewrite check_type_errors_report, Hs.
  cbn [merged_text]. rewrite report_type_errors_window.
  assert (W : window ((join [NL] head ++ NL :: more) ++ err) = join [NL] head).
  { rewrite <- app_assoc. change ((NL :: more) ++ err) with (NL :: (more ++ err)).
    unfold window. rewrite split_join_more; [|now destruct head|assumption].
    rewrite <- Hlen. now rewrite firstn_exact. }
  rewrite W, Hno. reflexivity.
Qed.

End Commands.

(** ** Further properties: the reports as functions of the text *)

Section Texts.

Lemma split_nonnil (s : str) : split NL s <> [].
Proof.
  destruct s as [|c s]; simpl; [discriminate|].
  destruct (c =? NL)%N; [discriminate|].
  destruct (split NL s); discriminate.
Qed.

Lemma join_cons_head (c : N) (l : str) (ls : list str) :
  join [NL] ((c :: l) :: ls) = c :: join [NL] (l :: ls).
Proof. destruct ls; reflexivity. Qed.

(** Splitting at newlines and joining with newlines gives the text back. *)
Lemma join_split (s : str) : join [NL] (split NL s) = s.
Proof.
  induction s as [|c s IH]; [reflexivity|].
  simpl split. destruct (N.eqb_spec c NL) as [->|Hc].
  - rewrite join_cons_more by apply split_nonnil. now rewrite IH.
  - pose proof (split_nonnil s) as Hne.
    destruct (split NL s) as [|l ls]; [contradiction|].
    rewrite join_cons_head. now rewrite IH.
Qed.

(** X14. A compiler text of at most 20 lines is inspected whole: the text
    the check searches is the text itself, so the count is the number of
    occurrences of ["error TS"] in the whole text and the sample is its
    first 500 characters. *)
Theorem short_output_is_inspected_whole (result : str) :
  length (split NL result) <= 20 ->
  window result = result /\
  report_type_errors result =
    (if contains error_TS result
     then [type_errors_line (occurrences error_TS result); firstn 500 result]
     else [no_type_errors_line], Return tt).
Proof.
  intros Hlen.
  assert (W : window result = result).
  { unfold window. rewrite firstn_all2 by assumption. apply join_split. }
  split; [exact W|].
  rewrite report_type_errors_window, W.
  now destruct (contains error_TS result).
Qed.

Lemma three_errors_inspected_whole :
  report_type_errors Sample.three_errors_output =
    ([type_errors_line 3; firstn 500 Sample.three_errors_output], Return tt).
Proof.
  rewrite (proj2 (@short_output_is_inspected_whole Sample.three_errors_output
                    ltac:(vm_compute; lia))).
  vm_compute. reflexivity.
Defined.

(** *** The unsafe-type-usage scanner on any text *)

Lemma lstrip_head (s : str) :
  lstrip s = [] \/ exists c t, lstrip s = c :: t /\ isspace c = false.
Proof.
  induction s as [|c s IH]; [now left|].
  simpl. destruct (isspace c) eqn:Hc; [exact IH|].
  right. now exists c, s.
Qed.

Lemma strip_head (s : str) :
  strip s <> [] -> exists c t, strip s = c :: t /\ isspace c = false.
Proof.
  unfold strip. intros H.
  destruct (lstrip_head s) as [E|(c & t & E & Hc)].
  - rewrite E in H. now contradiction H.
  - rewrite E. exists c, (rstrip t). split; [|assumption].
    exact (@rstrip_keeps_upto [] c t Hc).
Qed.

Lemma split_head (c : N) (x : str) :
  isspace c = false ->
  exists l ls, split NL (c :: x) = (c :: l) :: ls.
Proof.
  intros Hc. simpl. destruct (N.eqb_spec c NL) as [->|_].
  - discriminate Hc.
  - pose proof (split_nonnil x) as Hne.
    destruct (split NL x) as [|l ls]; [contradiction|]. now exists l, ls.
Qed.

(** X4. The scanner prints the success line exactly when the result is
    empty or white space only. Any other text, a complaint of the search
    tool included, is reported as at least one occurrence, followed by the
    first five lines of the stripped text. *)
Theorem any_usage_succeeds_only_on_blank_text (result : str) :
  (strip result = [] ->
   report_any_usage result = ([no_any_line], Return tt)) /\
  (strip result <> [] ->
   1 <= length (filter nonempty (split NL (strip result))) /\
   report_any_usage result =
     ([any_usage_count_line (length (filter nonempty (split NL (strip result))));
       join [NL] (firstn 5 (split NL (strip result)))], Return tt)).
Proof.
  split; intros H.
  - unfold report_any_usage, result_lines. rewrite H. reflexivity.
  - destruct (strip_head _ H) as (c & t & E & Hc).
    destruct (@split_head c t Hc) as (l & ls & Es).
    unfold report_any_usage, result_lines. rewrite E, Es.
    cbn [nonempty filter length]. split; [lia|].
    change (0 <? S (length (filter nonempty ls))) with true. cbv iota.
    cbn [firstn]. rewrite join_cons_head. reflexivity.
Qed.

Lemma grep_complaint_counts_as_occurrence :
  report_any_usage More.grep_complaint =
    ([any_usage_count_line 1; lit "grep: src/: No such file or directory"],
     Return tt) /\
  report_any_usage [NL; 32%N; NL] = ([no_any_line], Return tt).
Proof.
  split.
  - destruct (proj2 (any_usage_succeeds_only_on_blank_text More.grep_complaint))
      as (_ & E).
    + vm_compute. discriminate.
    + rewrite E. vm_compute. reflexivity.
  - apply (proj1 (any_usage_succeeds_only_on_blank_text [NL; 32%N; NL])).
    reflexivity.
Defined.

End Texts.

(** ** Further properties: the whole report *)

Section Report.

Variable unicode_lower : str -> str.
Variable repr_value : json -> str.
Variable json_loads : str -> py json.
Variable spawn : list str -> py (str * str).
Variable path_exists : str -> py bool.
Variable read_text : str -> py str.

Local Abbreviation the_tsconfig :=
  (check_tsconfig repr_value json_loads path_exists read_text).
Local Abbreviation the_tooling :=
  (check_tooling unicode_lower json_loads path_exists read_text).
Local Abbreviation whole_run :=
  (main unicode_lower repr_value json_loads spawn path_exists read_text).

Lemma for_each_print {A} (f : A -> str) (l : list A) :
  for_each l (fun x => print (f x)) = (map f l, Return tt).
Proof.
  induction l as [|x l IH]; [reflexivity|].
  simpl. now rewrite IH.
Qed.

Lemma performance_lists_the_marked_lines_aux :
  check_performance spawn =
    (performance_heading
       ++ (if nonempty_list
                (filter pattern_search
                   (split NL (merged_text (spawn tsc_diagnostics_cmd))))
           then map (fun line => lit "  " ++ line)
                  (filter pattern_search
                     (split NL (merged_text (spawn tsc_diagnostics_cmd))))
           else [no_performance_line]),
     Return tt).
Proof.
  unfold check_performance. cbn [bind print].
  fold tsc_diagnostics_cmd. rewrite run_cmd_merged. cbn [bind].
  destruct (filter pattern_search
              (split NL (merged_text (spawn tsc_diagnostics_cmd)))) as [|m ms].
  - reflexivity.
  - cbn [nonempty_list]. rewrite for_each_print. reflexivity.
Qed.

(** X15. The performance profiler never raises. After its heading it prints
    the lines of the merged compiler text that hold one of the four markers,
    in their order and each behind two spaces, or the warning when no line
    holds one. *)
Theorem performance_lists_the_marked_lines :
  check_performance spawn =
    (performance_heading
       ++ (if nonempty_list
                (filter pattern_search
                   (split NL (merged_text (spawn tsc_diagnostics_cmd))))
           then map (fun line => lit "  " ++ line)
                  (filter pattern_search
                     (split NL (merged_text (spawn tsc_diagnostics_cmd))))
           else [no_performance_line]),
     Return tt).
Proof. apply performance_lists_the_marked_lines_aux. Qed.

Lemma check_performance_returns :
  exists out, check_performance spawn = (out, Return tt).
Proof. rewrite performance_lists_the_marked_lines_aux. eexists. reflexivity. Qed.

(** X16. The run prints its banner and the sections of the checks in their
    fixed order. The checks that run a command never raise; the
    configuration analyzer, the tooling detector and the monorepo detector
    can. The run ends with the exception of the first of these three that
    raises, right after what that check printed and without the completion
    lines; when none raises it completes and closes the report with the
    completion lines. *)
Theorem main_runs_the_checks_in_order :
  whole_run =
    match outcome the_tsconfig with
    | Raise e => (banner ++ versions_entries ++ printed the_tsconfig, Raise e)
    | Return _ =>
        match outcome the_tooling with
        | Raise e =>
            (banner ++ versions_entries ++ printed the_tsconfig
               ++ printed the_tooling, Raise e)
        | Return _ =>
            match outcome (check_monorepo path_exists) with
            | Raise e =>
                (banner ++ versions_entries ++ printed the_tsconfig
                   ++ printed the_tooling
                   ++ printed (check_monorepo path_exists), Raise e)
            | Return _ =>
                (banner ++ versions_entries ++ printed the_tsconfig
                   ++ printed the_tooling
                   ++ printed (check_monorepo path_exists)
                   ++ any_usage_section ++ type_assertions_section
                   ++ printed (check_type_errors spawn)
                   ++ printed (check_performance spawn)
                   ++ closing, Return tt)
            end
        end
    end.
Proof.
  unfold main. cbn [bind print].
  rewrite check_versions_entries. cbn [bind].
  destruct (check_tsconfig repr_value json_loads path_exists read_text)
    as [o1 [[]|e1]]; cbn [printed outcome fst snd]; [|reflexivity].
  destruct (check_tooling unicode_lower json_loads path_exists read_text)
    as [o2 [[]|e2]]; cbn [printed outcome fst snd]; [|reflexivity].
  destruct (check_monorepo path_exists)
    as [o3 [[]|e3]]; cbn [printed outcome fst snd]; [|reflexivity].
  rewrite check_any_usage_entries, check_type_assertions_entries.
  rewrite check_type_errors_report.
  destruct check_performance_returns as [o4 ->].
  reflexivity.
Qed.

End Report.

(** ** Further properties: the checks that load a JSON file *)

Section JsonFiles.

Variable unicode_lower : str -> str.
Variable repr_value : json -> str.
Variable json_loads : str -> py json.
Variable path_exists : str -> py bool.
Variable read_text : str -> py str.

Local Abbreviation the_tsconfig :=
  (check_tsconfig repr_value json_loads path_exists read_text).
Local Abbreviation the_tooling :=
  (check_tooling unicode_lower json_loads path_exists read_text).
Local Abbreviation found := (tool_found unicode_lower).

(** *** The configuration analyzer on a loaded object *)

Local Abbreviation encodable := (fun s : str => has_surrogate s = false).







Lemma bind_known {A B} (a : A) (k : A -> io B) : bind ([], Return a) k = k a.
Proof. unfold bind. now destruct (k a). Qed.

(** The analyzer on a loaded object, before anything is printed from it. *)
Lemma check_tsconfig_loaded (text : str) (config co : dict) :
  path_exists (lit "tsconfig.json") = Return true ->
  read_text (lit "tsconfig.json") = Return text ->
  json_loads text = Return (JObj config) ->
  dict_get config (lit "compilerOptions") (JObj []) = JObj co ->
  the_tsconfig =
    bind (print (NL :: lit "⚙️ TSConfig Analysis:")) (fun _ =>
    bind (print (rule 40)) (fun _ =>
    try_except
      (bind (print (strict_line co)) (fun _ =>
       bind (for_each flags (print_flag repr_value (JObj co))) (fun _ =>
       bind (print_loaded (NL :: lit "  Module: ")
               (py_str repr_value
                  (dict_get co (lit "module") (JStr (lit "not set")))))
         (fun _ =>
       bind (print_loaded (lit "  Module Resolution: ")
               (py_str repr_value
                  (dict_get co (lit "moduleResolution") (JStr (lit "not set")))))
         (fun _ =>
       print_loaded (lit "  Target: ")
         (py_str repr_value
            (dict_get co (lit "target") (JStr (lit "not set")))))))))
      JSONDecodeError
      (fun _ => print (lit "❌ Invalid JSON in tsconfig.json")))).
Proof.
  intros Hex Hread Hload Hco.
  unfold check_tsconfig, json_load, lift. rewrite Hex, bind_known.
  cbn [negb]. rewrite Hread, bind_known, Hload, bind_known.
  cbn [py_get]. unfold ret. rewrite bind_known, Hco.
  cbn [py_get]. unfold ret. rewrite !bind_known.
  unfold strict_line.
  destruct (truthy (dict_get co (lit "strict") JNull)); reflexivity.
Qed.



(** X6. For a configuration without [compilerOptions], or with empty ones,
    the analyzer reports the strict mode as not enabled and shows every flag
    and every setting as ["not set"]. *)
Theorem config_without_options_shows_not_set (text : str) (config : dict) :
  path_exists (lit "tsconfig.json") = Return true ->
  read_text (lit "tsconfig.json") = Return text ->
  json_loads text = Return (JObj config) ->
  dict_get config (lit "compilerOptions") (JObj []) = JObj [] ->
  the_tsconfig = (tsconfig_heading ++ tsconfig_default_entries, Return tt).
Proof.
  intros Hex Hread Hload Hco.
  rewrite (check_tsconfig_loaded Hex Hread Hload Hco).
  vm_compute. reflexivity.
Qed.


(** X8. When [compilerOptions] is there and is not an object ([null], a
    string, a list), the first lookup in it raises [AttributeError]: the
    analyzer prints its heading only and the exception leaves the check. *)
Theorem config_options_not_object_raises (text : str) (config : dict) (v : json) :
  path_exists (lit "tsconfig.json") = Return true ->
  read_text (lit "tsconfig.json") = Return text ->
  json_loads text = Return (JObj config) ->
  dict_get config (lit "compilerOptions") (JObj []) = v ->
  is_object v = false ->
  the_tsconfig = (tsconfig_heading, Raise (no_get v)).
Proof.
  intros Hex Hread Hload Hco Hobj.
  unfold check_tsconfig, json_load. rewrite Hex, Hread.
  cbn [negb lift bind app]. rewrite Hload.
  cbn [py_get ret bind app]. rewrite Hco.
  destruct v; try discriminate Hobj; reflexivity.
Qed.

(** *** The tooling detector: the dependency groups *)

(** X9. When the manifest is an object whose [dependencies], or whose
    [devDependencies] after sound [dependencies], is not an object, the
    merge of the two groups raises [TypeError]: the detector prints its
    heading only and the exception leaves the check. *)
Theorem dependency_group_not_object_raises (text : str) (pkg : dict) (v : json) :
  path_exists (lit "package.json") = Return true ->
  read_text (lit "package.json") = Return text ->
  json_loads text = Return (JObj pkg) ->
  is_object v = false ->
  (dict_get pkg (lit "dependencies") (JObj []) = v ->
   the_tooling = (tooling_heading, Raise (not_a_mapping v))) /\
  (forall deps : dict,
      dict_get pkg (lit "dependencies") (JObj []) = JObj deps ->
      dict_get pkg (lit "devDependencies") (JObj []) = v ->
      the_tooling = (tooling_heading, Raise (not_a_mapping v))).
Proof.
  intros Hex Hread Hload Hobj. split.
  - intros Hdeps.
    unfold check_tooling, json_load. rewrite Hex, Hread.
    cbn [negb lift bind app]. rewrite Hload.
    cbn [py_get ret bind app]. rewrite Hdeps.
    destruct v; try discriminate Hobj; reflexivity.
  - intros deps Hdeps Hdev.
    unfold check_tooling, json_load. rewrite Hex, Hread.
    cbn [negb lift bind app]. rewrite Hload.
    cbn [py_get ret bind app]. rewrite Hdeps.
    cbn [unpack_into ret bind app]. rewrite Hdev.
    destruct v; try discriminate Hobj; reflexivity.
Qed.

Lemma keys_dict_set (d : dict) (key : str) (v : json) :
  keys (dict_set d key v) = keys d \/
  (~ In key (keys d) /\ keys (dict_set d key v) = keys d ++ [key]).
Proof.
  induction d as [|[k w] d IH]; simpl.
  - right. split; [tauto | reflexivity].
  - destruct (str_eqb k key) eqn:E.
    + now left.
    + simpl. destruct IH as [IH|[Hn IH]].
      * left. unfold keys in *. now rewrite IH.
      * right. split.
        -- intros [->|Hin]; [|contradiction].
           now rewrite str_eqb_refl in E.
        -- unfold keys in *. now rewrite IH.
Qed.

Lemma in_keys_dict_set (d : dict) (key : str) (v : json) (k : str) :
  In k (keys (dict_set d key v)) <-> In k (keys d) \/ k = key.
Proof.
  induction d as [|[k0 w] d IH]; simpl.
  - intuition congruence.
  - destruct (str_eqb k0 key) eqn:E; simpl.
    + apply str_eqb_eq in E. subst k0. intuition congruence.
    + rewrite IH. tauto.
Qed.

Lemma nodup_keys_dict_set (d : dict) (key : str) (v : json) :
  NoDup (keys d) -> NoDup (keys (dict_set d key v)).
Proof.
  intros H. destruct (keys_dict_set d key v) as [->|[Hn ->]]; [assumption|].
  apply NoDup_app; [assumption | repeat constructor; intros [] |].
  intros a Ha [<-|[]]. contradiction.
Qed.

Lemma in_keys_dict_update (other d : dict) (k : str) :
  In k (keys (dict_update d other)) <-> In k (keys d) \/ In k (keys other).
Proof.
  unfold dict_update. revert d.
  induction other as [|[k0 v] other IH]; intros d; simpl.
  - tauto.
  - rewrite IH, in_keys_dict_set. intuition congruence.
Qed.

Lemma nodup_keys_dict_update (other d : dict) :
  NoDup (keys d) -> NoDup (keys (dict_update d other)).
Proof.
  unfold dict_update. revert d.
  induction other as [|[k0 v] other IH]; intros d H; simpl; [assumption|].
  apply IH. now apply nodup_keys_dict_set.
Qed.

Lemma existsb_same_members {A} (f : A -> bool) (l l' : list A) :
  (forall x, In x l <-> In x l') -> existsb f l = existsb f l'.
Proof.
  intros H. apply eq_true_iff_eq. rewrite !existsb_exists.
  split; intros (x & Hx & Hf); exists x; split; try assumption; now apply H.
Qed.

(** X10. The merge of the two groups holds every name of either group and
    each name once, so a tool is found in the merged names exactly when it
    is found in the names of [dependencies] or in those of
    [devDependencies]. *)
Theorem merged_names_cover_both_groups (deps dev : dict) (tool : str) :
  (forall k, In k (merged_names deps dev) <-> In k (keys deps) \/ In k (keys dev)) /\
  NoDup (merged_names deps dev) /\
  found tool (merged_names deps dev) =
    found tool (keys deps) || found tool (keys dev).
Proof.
  assert (M : forall k, In k (merged_names deps dev) <->
                        In k (keys deps) \/ In k (keys dev)).
  { intros k. unfold merged_names. rewrite !in_keys_dict_update. simpl. tauto. }
  split; [exact M|]. split.
  - unfold merged_names. do 2 apply nodup_keys_dict_update. constructor.
  - unfold tool_found. rewrite <- existsb_app.
    apply existsb_same_members. intros k. rewrite M, in_app_iff. tauto.
Qed.

(** *** The tooling detector: Turborepo and Turbo *)

Lemma startswith_app_left (a b s : str) :
  startswith (a ++ b) s = true -> startswith a s = true.
Proof.
  revert s. induction a as [|x a IH]; intros s H; [reflexivity|].
  destruct s as [|y s]; [discriminate|]. simpl in *.
  apply andb_true_iff in H as [Hxy H]. rewrite Hxy. now apply IH.
Qed.

Lemma contains_app_left (a b s : str) :
  contains (a ++ b) s = true -> contains a s = true.
Proof.
  induction s as [|y s IH]; cbn [contains]; intros H.
  - apply orb_true_iff in H as [H|H]; [|discriminate].
    now rewrite (startswith_app_left _ _ _ H).
  - apply orb_true_iff in H as [H|H].
    + now rewrite (startswith_app_left _ _ _ H).
    + rewrite (IH H). apply orb_true_r.
Qed.

Lemma turborepo_found_turbo_found (deps : list str) :
  found (lit "turborepo") deps = true -> found (lit "turbo") deps = true.
Proof.
  unfold tool_found. rewrite !existsb_exists.
  intros (dep & Hin & H). exists dep. split; [assumption|].
  apply (contains_app_left (lit "turbo") (lit "repo")).
  replace (lit "turbo" ++ lit "repo") with (lit "turborepo")
    by (vm_compute; reflexivity).
  exact H.
Qed.

(** X11. In every run, whenever the detector prints the Turborepo label it
    prints the Turbo label as well: a name that contains [turborepo]
    contains [turbo]. *)
Theorem turborepo_label_brings_turbo_label :
  times turborepo_label (printed the_tooling) <=
  times turbo_label (printed the_tooling).
Proof.
  assert (H6 : In (lit "turborepo", lit "Turborepo (monorepo)") tools)
    by (unfold tools; do 5 right; left; reflexivity).
  assert (H7 : In (lit "turbo", lit "Turbo (monorepo)") tools)
    by (unfold tools; do 6 right; left; reflexivity).
  destruct (check_tooling_entries unicode_lower json_loads path_exists read_text)
    as (X & -> & HX).
  destruct HX as [->|[->|[->|[deps ->]]]];
    [vm_compute; lia | vm_compute; lia | vm_compute; lia |].
  rewrite !times_app.
  unfold turborepo_label, turbo_label.
  pose proof (heading_not_tool_line H6) as A6.
  pose proof (heading_not_tool_line H7) as A7.
  pose proof (times_found_tool_lines unicode_lower deps H6) as B6.
  pose proof (times_found_tool_lines unicode_lower deps H7) as B7.
  cbn [fst snd] in A6, A7, B6, B7.
  rewrite A6, A7, B6, B7. cbn [plus].
  destruct (found (lit "turborepo") deps) eqn:E.
  - now rewrite (turborepo_found_turbo_found _ E).
  - destruct (found (lit "turbo") deps); lia.
Qed.

End JsonFiles.

(** ** Further properties: what the two guarded reads let through *)

Section Unguarded.

Variable unicode_lower : str -> str.
Variable repr_value : json -> str.
Variable json_loads : str -> py json.
Variable path_exists : str -> py bool.
Variable read_text : str -> py str.

(** X17. The [try] of the two checks that load a file catches
    [JSONDecodeError] only. When the file is there and opening or reading it
    raises anything else (a permission error, a decoding error), the check
    prints its heading only and the exception leaves the check. *)
Theorem read_errors_are_not_caught (e : exn) :
  issubclass (exn_class e) JSONDecodeError = false ->
  (path_exists (lit "tsconfig.json") = Return true ->
   read_text (lit "tsconfig.json") = Raise e ->
   check_tsconfig repr_value json_loads path_exists read_text =
     (tsconfig_heading, Raise e)) /\
  (path_exists (lit "package.json") = Return true ->
   read_text (lit "package.json") = Raise e ->
   check_tooling unicode_lower json_loads path_exists read_text =
     (tooling_heading, Raise e)).
Proof.
  intros Hclass. split; intros Hex Hread.
  - unfold check_tsconfig, json_load. rewrite Hex, Hread.
    cbn [negb lift bind try_except]. rewrite Hclass. reflexivity.
  - unfold check_tooling, json_load. rewrite Hex, Hread.
    cbn [negb lift bind try_except]. rewrite Hclass. reflexivity.
Qed.

End Unguarded.

(** ** The amended properties at the sample inputs *)

Lemma monorepo_markers_and_a_failing_test :
  check_monorepo (fun p => Return (Edge.two_markers p)) =
    (monorepo_heading
       ++ [detected_line (lit "Lerna"); detected_line (lit "Turborepo")],
     Return tt) /\
  check_monorepo Edge.nx_unreadable =
    (monorepo_heading ++ [detected_line (lit "Lerna")],
     Raise (Locked.permission_denied (lit "nx.json"))).
Proof.
  split.
  - destruct (proj1 (monorepo_lines_follow_markers
                       (fun p => Return (Edge.two_markers p)))
                Edge.two_markers) as [E _].
    + intros fn _. reflexivity.
    + rewrite E. vm_compute. reflexivity.
  - rewrite (proj2 (monorepo_lines_follow_markers Edge.nx_unreadable)
               (fun p => str_eqb p (lit "lerna.json"))
               [ (lit "pnpm-workspace.yaml", lit "PNPM Workspace");
                 (lit "lerna.json", lit "Lerna") ]
               (lit "nx.json") (lit "Nx")
               [ (lit "turbo.json", lit "Turborepo") ]
               (Locked.permission_denied (lit "nx.json"))).
    + vm_compute. reflexivity.
    + reflexivity.
    + intros fn [<-|[<-|[]]]; vm_compute; reflexivity.
    + vm_compute. reflexivity.
Defined.

(** In a directory that may not be searched no marker is found, and the
    detector raises instead of printing the "no configuration" line: its
    report is none of those the specification describes. *)
Lemma monorepo_unsearchable_directory_raises :
  check_monorepo Locked.no_search =
    (monorepo_heading,
     Raise (Locked.permission_denied (lit "pnpm-workspace.yaml"))) /\
  ~ (exists present : str -> bool,
        check_monorepo Locked.no_search = spec_monorepo_report present).
Proof.
  assert (E : check_monorepo Locked.no_search =
                (monorepo_heading,
                 Raise (Locked.permission_denied (lit "pnpm-workspace.yaml"))))
    by (vm_compute; reflexivity).
  split; [exact E|].
  intros [present H]. rewrite E in H.
  apply (f_equal snd) in H. unfold spec_monorepo_report in H. simpl in H.
  discriminate H.
Qed.

(** Two files that are there and are not valid JSON, on which [json.load]
    raises something else than [JSONDecodeError]: a text that opens 100000
    arrays, and a file saved as UTF-16. The analyzer prints no error line and
    the exception leaves the check. *)
Lemma invalid_json_can_leave_the_check :
  Edge.run_check_tsconfig Edge.deep_project =
    (tsconfig_heading, Raise Edge.too_deep) /\
  check_tsconfig Sample.repr_value Sample.json_loads
      Locked.path_exists Edge.utf16_read =
    (tsconfig_heading, Raise Edge.not_utf8) /\
  Edge.run_check_tsconfig Edge.deep_project <> spec_invalid_config_report /\
  check_tsconfig Sample.repr_value Sample.json_loads
      Locked.path_exists Edge.utf16_read <> spec_invalid_config_report.
Proof.
  assert (E1 : Edge.run_check_tsconfig Edge.deep_project =
                 (tsconfig_heading, Raise Edge.too_deep))
    by (vm_compute; reflexivity).
  assert (E2 : check_tsconfig Sample.repr_value Sample.json_loads
                   Locked.path_exists Edge.utf16_read =
                 (tsconfig_heading, Raise Edge.not_utf8))
    by (vm_compute; reflexivity).
  split; [exact E1|]. split; [exact E2|]. split.
  - rewrite E1. intros H. apply (f_equal snd) in H. discriminate H.
  - rewrite E2. intros H. apply (f_equal snd) in H. discriminate H.
Qed.

(** ** The further properties at the sample inputs *)

Lemma missing_compiler_reads_as_clean :
  check_type_errors Sample.spawn =
    (type_check_heading ++ [no_type_errors_line], Return tt).
Proof.
  apply (@type_check_reports_clean_when_compiler_is_missing Sample.spawn
           (mk_exn FileNotFoundError
              (lit "[Errno 2] No such file or directory: 'npx'")));
    vm_compute; reflexivity.
Defined.

Lemma error_on_stderr_is_missed :
  contains error_TS (merged_text (More.error_on_stderr tsc_check_cmd)) = true /\
  check_type_errors More.error_on_stderr =
    (type_check_heading ++ [no_type_errors_line], Return tt).
Proof.
  split; [vm_compute; reflexivity|].
  apply (@type_check_misses_errors_behind_20_lines More.error_on_stderr
           Sample.late_error_head More.quiet_stdout_rest
           (Sample.error_line ++ [NL])).
  - reflexivity.
  - reflexivity.
  - unfold Sample.late_error_head. simpl repeat.
    repeat (apply Forall_cons; [vm_compute; reflexivity|]). apply Forall_nil.
  - vm_compute. reflexivity.
Defined.


Example surrogate_target_report :
  Edge.run_check_tsconfig Edge.surrogate_project =
    (tsconfig_heading
       ++ [ lit "⚠️ Strict mode NOT enabled";
            lit "  ⚪ Unchecked index access protection: not set";
            lit "  ⚪ Implicit override protection: not set";
            lit "  ⚪ Skip lib check (performance): not set";
            lit "  ⚪ Incremental compilation: not set";
            NL :: lit "  Module: not set";
            lit "  Module Resolution: not set" ],
     Raise (mk_exn UnicodeEncodeError
              (lit "'utf-8' codec can't encode character '\ud83d' in position 12: surrogates not allowed"))).
Proof. vm_compute. reflexivity. Qed.

Lemma empty_config_report :
  More.run_check_tsconfig More.empty_config_project =
    (tsconfig_heading ++ tsconfig_default_entries, Return tt).
Proof.
  unfold More.run_check_tsconfig.
  apply (@config_without_options_shows_not_set Sample.repr_value More.json_loads
           (fun p => Return (Sample.file_exists More.empty_config_project p))
           (Sample.file_text More.empty_config_project)
           More.empty_object_text []);
    vm_compute; reflexivity.
Defined.


Lemma null_options_raise :
  More.run_check_tsconfig More.null_options_project =
    (tsconfig_heading, Raise (no_get JNull)).
Proof.
  unfold More.run_check_tsconfig.
  apply (@config_options_not_object_raises Sample.repr_value More.json_loads
           (fun p => Return (Sample.file_exists More.null_options_project p))
           (Sample.file_text More.null_options_project)
           More.null_options_text More.null_options_config JNull);
    vm_compute; reflexivity.
Defined.

Lemma list_of_dependencies_raises :
  More.run_check_tooling More.list_deps_project =
    (tooling_heading, Raise (not_a_mapping (JArr []))).
Proof.
  unfold More.run_check_tooling.
  apply (proj1 (@dependency_group_not_object_raises Sample.unicode_lower
                  More.json_loads
                  (fun p => Return (Sample.file_exists More.list_deps_project p))
                  (Sample.file_text More.list_deps_project)
                  More.list_deps_text More.list_deps_pkg (JArr [])
                  ltac:(vm_compute; reflexivity) ltac:(vm_compute; reflexivity)
                  ltac:(vm_compute; reflexivity) ltac:(reflexivity)));
    vm_compute; reflexivity.
Defined.

Lemma unreadable_files_raise :
  check_tsconfig Sample.repr_value Sample.json_loads
      Locked.path_exists Locked.read_text =
    (tsconfig_heading, Raise (Locked.permission_denied (lit "tsconfig.json"))) /\
  check_tooling Sample.unicode_lower Sample.json_loads
      Locked.path_exists Locked.read_text =
    (tooling_heading, Raise (Locked.permission_denied (lit "package.json"))).
Proof.
  split.
  - apply (proj1 (@read_errors_are_not_caught Sample.unicode_lower
                    Sample.repr_value Sample.json_loads
                    Locked.path_exists Locked.read_text
                    (Locked.permission_denied (lit "tsconfig.json"))
                    ltac:(reflexivity)));
      vm_compute; reflexivity.
  - apply (proj2 (@read_errors_are_not_caught Sample.unicode_lower
                    Sample.repr_value Sample.json_loads
                    Locked.path_exists Locked.read_text
                    (Locked.permission_denied (lit "package.json"))
                    ltac:(reflexivity)));
      vm_compute; reflexivity.
Defined.
